(** * prepare-commit-msg: the AI commit-message hook

    A shallow embedding of [ai-commit-msg/prepare-commit-msg.py] and the
    properties of its completion client, prompt builder and driver.

    Python values are modelled as the interpreter has them: a [str] is a
    sequence of Unicode code points, the value decoded by [json.loads] is a
    tagged union, a raised exception ends the computation with that exception.
    The process's surroundings (argument vector, environment, files, the
    [git] subprocesses, the HTTPS endpoint) form an explicit world that every
    effectful function threads through. *)

From Stdlib Require Import String Ascii ZArith NArith Floats.
From stdpp Require Import gmap list.

Set Warnings "-register-all,-inexact-float,-abstract-large-number".
Local Open Scope N_scope.

(** ** Python strings *)

(** A Python [str]: the list of its code points. *)
Abbreviation str := (list N).

(** An ASCII literal of the source, as a [str]. *)
Fixpoint lit (s : string) : str :=
  match s with
  | EmptyString => []
  | String a r => N_of_ascii a :: lit r
  end.

(** U+1F916 ROBOT FACE, the emoji of the marker. *)
Definition robot : N := 129302.
(** The double quote, the line feed and the escape character. *)
Definition dq : N := 34.
Definition nl : N := 10.
Definition esc : N := 27.

(** The marker ["🤖 "] and the banned opening ["🤖 Update"]. *)
Definition marker : str := robot :: lit " ".
Definition marker_update : str := robot :: lit " Update".

(** [str.isspace] on one code point (the interpreter's whitespace table):
    what [str.strip] with no argument removes. *)
Definition is_space (c : N) : bool :=
  ((9 <=? c) && (c <=? 13)) || ((28 <=? c) && (c <=? 32))
  || (c =? 133) || (c =? 160) || (c =? 5760)
  || ((8192 <=? c) && (c <=? 8202))
  || (c =? 8232) || (c =? 8233) || (c =? 8239) || (c =? 8287) || (c =? 12288).

Fixpoint lstrip (s : str) : str :=
  match s with
  | [] => []
  | c :: r => if is_space c then lstrip r else s
  end.

Definition rstrip (s : str) : str := reverse (lstrip (reverse s)).

(** [s.strip()] *)
Definition strip (s : str) : str := rstrip (lstrip s).

Definition str_eqb (a b : str) : bool := bool_decide (a = b).

(** [s.startswith(p)] *)
Fixpoint startswith (s p : str) {struct p} : bool :=
  match p, s with
  | [], _ => true
  | _ :: _, [] => false
  | a :: p', b :: s' => (a =? b) && startswith s' p'
  end.

(** [needle in hay] on two strings: substring search. *)
Fixpoint str_contains (hay needle : str) : bool :=
  startswith hay needle ||
  match hay with
  | [] => false
  | _ :: r => str_contains r needle
  end.

(** Truth value of a string: non-empty. *)
Definition truthy (s : str) : bool :=
  match s with [] => false | _ => true end.

(** Line boundaries of [str.splitlines]. *)
Definition is_linebreak (c : N) : bool :=
  ((10 <=? c) && (c <=? 13)) || ((28 <=? c) && (c <=? 30))
  || (c =? 133) || (c =? 8232) || (c =? 8233).

(** [s.splitlines()]: [cur] is the line being read. A carriage return
    followed by a line feed is one boundary; no empty last line. *)
Fixpoint splitlines_from (cur s : str) : list str :=
  match s with
  | [] => if truthy cur then [cur] else []
  | c :: r =>
      if c =? 13 then
        match r with
        | d :: r' => if d =? 10 then cur :: splitlines_from [] r'
                     else cur :: splitlines_from [] r
        | [] => cur :: splitlines_from [] r
        end
      else if is_linebreak c then cur :: splitlines_from [] r
      else splitlines_from (cur ++ [c]) r
  end.

Definition splitlines (s : str) : list str := splitlines_from [] s.

(** [f.readline()] on a file opened in text mode at its start: the first
    line with its terminator; universal newlines turn a carriage return
    (with or without a following line feed) into a line feed. *)
Fixpoint readline (s : str) : str :=
  match s with
  | [] => []
  | c :: r => if (c =? 10) || (c =? 13) then [nl] else c :: readline r
  end.

(** [s[:n]] for a non-negative [n]. *)
Definition slice_to (n : nat) (s : str) : str := take n s.

(** ** Decoded JSON *)

(** What [json.loads] returns. A [dict] keeps its insertion order; its keys
    are strings, each bound once. *)
Inductive json : Type :=
| JNull
| JBool (b : bool)
| JInt (n : Z)
| JFloat (f : float)
| JStr (s : str)
| JList (l : list json)
| JDict (d : list (str * json)).

Fixpoint dict_get (d : list (str * json)) (k : str) : option json :=
  match d with
  | [] => None
  | (k', v) :: r => if str_eqb k' k then Some v else dict_get r k
  end.

(** ** Exceptions *)

(** Failures of the transport that the source leaves to the libraries. *)
Inductive transport_failure := DnsFailure | TlsFailure | TimedOut | MalformedJson.

Inductive exn : Type :=
| OpenAIApiException (msg : str)
| OpenAIBadCompletionException (msg : str)
| Exception (msg : str)
| TypeError
| KeyError (key : str)
| IndexError
| AttributeError
| FileNotFoundError (path : str)
| LibraryError (k : transport_failure)
| SystemExit (code : Z).

(** [isinstance(e, OpenAIApiException)]: the class and its subclass. *)
Definition is_api_exception (e : exn) : bool :=
  match e with
  | OpenAIApiException _ | OpenAIBadCompletionException _ => true
  | _ => false
  end.

(** [isinstance(e, OpenAIBadCompletionException)] *)
Definition is_bad_completion (e : exn) : bool :=
  match e with
  | OpenAIBadCompletionException _ => true
  | _ => false
  end.

Inductive result (A : Type) : Type :=
| Ok (a : A)
| Raise (e : exn).
Arguments Ok {A} a.
Arguments Raise {A} e.

(** ** Operators on decoded values *)

(** [key in v] for a string [key]. *)
Definition py_contains (key : str) (v : json) : result bool :=
  match v with
  | JDict d => Ok (match dict_get d key with Some _ => true | None => false end)
  | JList l =>
      Ok (existsb (fun x => match x with JStr s => str_eqb s key | _ => false end) l)
  | JStr s => Ok (str_contains s key)
  | _ => Raise TypeError
  end.

(** [v[key]] for a string [key]. *)
Definition py_getitem (v : json) (key : str) : result json :=
  match v with
  | JDict d =>
      match dict_get d key with
      | Some x => Ok x
      | None => Raise (KeyError key)
      end
  | _ => Raise TypeError
  end.

(** [v[0]]. A [dict] decoded from JSON has no integer key. *)
Definition py_getitem0 (v : json) : result json :=
  match v with
  | JList (x :: _) => Ok x
  | JList [] => Raise IndexError
  | JStr (c :: _) => Ok (JStr [c])
  | JStr [] => Raise IndexError
  | JDict _ => Raise (KeyError (lit "0"))
  | _ => Raise TypeError
  end.

(** [v.strip()] *)
Definition py_strip (v : json) : result str :=
  match v with
  | JStr s => Ok (strip s)
  | _ => Raise AttributeError
  end.

(** ** The world of one hook invocation *)

(** [subprocess.CompletedProcess], with the streams decoded as text. *)
Record CompletedProcess : Type := {
  stdout : str;
  stderr : str;
  returncode : Z
}.

(** The payload of [_create_request_data]. *)
Record request_data : Type := {
  rd_prompt : str;
  rd_model : str;
  rd_max_tokens : Z;
  rd_temperature : float;
  rd_top_p : Z
}.

(** One POST as [_send_request] issues it. *)
Record http_request : Type := {
  rq_host : str;
  rq_path : str;
  rq_body : request_data;
  rq_headers : list (str * str)
}.

(** What the round trip ends in: a failure inside [http.client] or
    [json.loads], or the decoded body. *)
Inductive http_reply : Type :=
| TransportFails (k : transport_failure)
| Decoded (response : json).

Inductive open_mode := ModeW | ModeA.

(** What the process does to its surroundings, in order. *)
Inductive event : Type :=
| EvStdout (text : str)
| EvStderr (text : str)
| EvRun (args : list str)
| EvHttp (rq : http_request)
| EvWrite (path : str) (mode : open_mode) (data : str)
| EvRemove (path : str).

Record World : Type := {
  argv : list str;
  environ : gmap str str;
  files : gmap str str;
  git : list str -> CompletedProcess;
  endpoint : http_request -> http_reply;
  trace : list event
}.

Definition set_files (fs : gmap str str) (w : World) : World :=
  {| argv := argv w; environ := environ w; files := fs;
     git := git w; endpoint := endpoint w; trace := trace w |}.

Definition log (e : event) (w : World) : World :=
  {| argv := argv w; environ := environ w; files := files w;
     git := git w; endpoint := endpoint w; trace := trace w ++ [e] |}.

(** ** Computations: state and exceptions *)

Definition M (A : Type) : Type := World -> result A * World.

#[global] Instance M_ret : MRet M := fun A a w => (Ok a, w).

#[global] Instance M_bind : MBind M := fun A B k m w =>
  match m w with
  | (Ok a, w') => k a w'
  | (Raise e, w') => (Raise e, w')
  end.

Definition raise {A : Type} (e : exn) : M A := fun w => (Raise e, w).

Definition lift {A : Type} (r : result A) : M A := fun w => (r, w).

Definition emit (e : event) : M unit := fun w => (Ok tt, log e w).

(** [print(s)] and [print(s, file=sys.stderr)] *)
Definition print (s : str) : M unit := emit (EvStdout (s ++ [nl])).
Definition print_stderr (s : str) : M unit := emit (EvStderr (s ++ [nl])).

(** [sys.argv[i]] *)
Definition sys_argv (i : nat) : M str := fun w =>
  match argv w !! i with
  | Some a => (Ok a, w)
  | None => (Raise IndexError, w)
  end.

(** [exit(code)] *)
Definition sys_exit {A : Type} (code : Z) : M A := raise (SystemExit code).

(** [with open(path, "r") as f: f.readline()] *)
Definition open_readline (path : str) : M str := fun w =>
  match files w !! path with
  | Some content => (Ok (readline content), w)
  | None => (Raise (FileNotFoundError path), w)
  end.

(** [with open(path, "w") as f: f.write(data)] *)
Definition open_write (path data : str) : M unit := fun w =>
  (Ok tt, log (EvWrite path ModeW data) (set_files (<[path := data]> (files w)) w)).

(** [with open(path, "a") as f: f.write(data)] *)
Definition open_append (path data : str) : M unit := fun w =>
  (Ok tt, log (EvWrite path ModeA data)
            (set_files (<[path := default [] (files w !! path) ++ data]> (files w)) w)).

(** [os.remove(path)] *)
Definition os_remove (path : str) : M unit := fun w =>
  match files w !! path with
  | Some _ => (Ok tt, log (EvRemove path) (set_files (delete path (files w)) w))
  | None => (Raise (FileNotFoundError path), w)
  end.

(** [subprocess.run(args, stdout=PIPE, stderr=PIPE, encoding="utf-8")] *)
Definition subprocess_run (args : list str) : M CompletedProcess := fun w =>
  (Ok (git w args), log (EvRun args) w).

(** [name in os.environ] and [os.environ.get(name)] *)
Definition environ_has (name : str) : M bool := fun w =>
  (Ok (match environ w !! name with Some _ => true | None => false end), w).
Definition environ_get (name : str) : M (option str) := fun w =>
  (Ok (environ w !! name), w).

(** The process boundary: the exit status an outcome of [main] gives. *)
Definition exit_status (r : result unit) : Z :=
  match r with
  | Ok _ => 0
  | Raise (SystemExit code) => code
  | Raise _ => 1
  end.

(** [if cond: body] *)
Definition when (cond : bool) (body : M unit) : M unit :=
  if cond then body else mret tt.

(** [for x in l: body(x)] *)
Fixpoint for_each {A : Type} (l : list A) (body : A -> M unit) : M unit :=
  match l with
  | [] => mret tt
  | x :: r => body x;; for_each r body
  end.

(** ** The prompt builder *)

Definition quoted (s : str) : str := dq :: s ++ [dq].

Definition signature (model : str) : str :=
  lit "(commit message written by OpenAI " ++ model ++ lit ")".

(** Each line of a block with its line feed. *)
Definition unlines (ls : list str) : str := concat (map (fun l => l ++ [nl]) ls).

(** The template up to the status text. *)
Definition prompt_intro (model : str) : str :=
  [nl] ++ unlines [
    lit "I want you to act as a technical writer for software engineers, your primary responsibility";
    lit "is to write clear and concise commit messages for code changes. Your job is to communicate";
    lit "the purpose and impact of code changes to other members of the development team. It is";
    lit "important to provide context and details about the changes made, but avoid including";
    lit "personal opinions or subjective evaluations in your messages.";
    [];
    lit "A good commit message has the following characteristics:";
    lit "- It is concise and accurately describes the changes made in the commit.";
    lit "- It is written in the imperative mood and begins with a verb";
    lit "- It explains why the change was made, rather than how it was made.";
    lit "- It includes a signature at the end of the message.";
    [];
    lit "Here is an example of a good commit message:";
    lit "```";
    [robot] ++ lit " Fix password bug in login form";
    [];
    lit "The login form was submitting even if the password field was empty.";
    lit "This commit fixes the bug by checking that the password field is not";
    lit "empty before allowing the form to be submitted.";
    [];
    [];
    signature model;
    lit "```";
    [];
    lit "Here is an example of a good commit message:";
    lit "```text";
    [robot] ++ lit " Add prettier and eslint dependencies";
    [];
    lit "This commit updates the package.json file to include the latest";
    lit "dependencies for prettier and eslint.";
    [];
    lit "prettier is a code formatter that automatically formats code to";
    lit "conform to a consistent style. It is configured to use the";
    lit "recommended settings for the JavaScript Standard Style.";
    [];
    lit "eslint is a linter that checks for common errors and code smells.";
    lit "It is configured to use the recommended settings for the";
    lit "JavaScript Standard Style.";
    [];
    signature model;
    lit "```";
    [];
    lit "Some other tips for writing good commit messages:";
    lit "- Separate subject from body with a blank line";
    lit "- Keep the subject line (the first line) to 50 characters or less";
    lit "- Use the body of the message to explain the details of the commit, if necessary";
    lit "- Wrap the body at 72 characters";
    lit "- The first two characters should be " ++ quoted marker ++ lit " to indicate that the commit message was written by an AI model";
    lit "- Do not start with the word " ++ quoted (lit "Update") ++ lit " or anything implied by a commit";
    [];
    lit "At the end of the commit message, add a signature:";
    lit "```text";
    signature model;
    lit "```";
    [];
    lit "Your first task is to review staged changes and suggest a clear and concise commit message for the latest code update to ensure they meet the required standards described above for clarity and conciseness.";
    [];
    lit "Now please, write a commit message for the following patch, starting with " ++ quoted marker ++ lit ".:";
    [];
    lit "Files changed:";
    lit "```";
    lit "// git status -s"
  ].

(** The template between the status text and the diff text. *)
Definition prompt_files_diff : str :=
  [nl] ++ unlines [
    lit "```";
    [];
    lit "Files diff:";
    lit "```diff";
    lit "// git diff --cached --no-color --no-ext-diff --unified=0 --no-prefix"
  ].

(** The closing instruction that bans the generic opening. *)
Definition prompt_lastly : str :=
  lit "Lastly, avoid starting the message with " ++ quoted marker_update ++ lit ". Instead, choose a unique and stylish first line in the imperative tense that concisely describes the changes made in the commit. This line should be no more than 50 characters.".

(** The template after the diff text. *)
Definition prompt_outro (model : str) : str :=
  [nl] ++ unlines [
    lit "```";
    prompt_lastly;
    [];
    lit "Now, please write a suggested commit message below that is clear, concise, and colorful, following the rules described above, beginning with " ++ quoted marker ++ lit " and ending with the signature " ++ [dq] ++ signature model ++ [dq] ++ lit ":";
    [];
    lit "Respond with the suggested commit message below starting with " ++ quoted marker ++ lit " (unquoted)."
  ].

(** [get_prompt(model, status_text, diff_text)]: the f-string, read left to
    right. *)
Definition get_prompt (model status_text diff_text : str) : str :=
  prompt_intro model ++ status_text ++ prompt_files_diff ++ diff_text ++ prompt_outro model.

(** ** The completion client and the driver *)

Definition OPENAI_API_KEY : str := lit "OPENAI_API_KEY".
Definition prompt_file : str := lit ".prompt".
Definition default_model : str := lit "text-davinci-003".

(** [self.url], with what [urlparse] makes of it. *)
Definition url : str := lit "https://api.openai.com/v1/completions".
Definition url_hostname : str := lit "api.openai.com".
Definition url_path : str := lit "/v1/completions".

(** An instance of [OpenAIApiClient]. *)
Record OpenAIApiClient : Type := { api_key : option str }.

(** [f"{key}"] of a value that is a string or [None]. *)
Definition format_optional (o : option str) : str :=
  match o with
  | Some s => s
  | None => lit "None"
  end.

(** ANSI bold red, as [_check_response] wraps its diagnostics. *)
Definition in_red (s : str) : str :=
  [esc] ++ lit "[01;31m" ++ s ++ [esc] ++ lit "[0;0m".

(** The three arguments of [print] joined by spaces, in the colour the
    driver shows a subprocess's complaints in. *)
Definition stderr_report (text : str) : str :=
  ([esc] ++ lit "[0;31m") ++ lit " " ++ text ++ lit " " ++ ([esc] ++ lit "[0m").

Section Hook.

(** [str(v)] of a decoded value that is not a string, and
    [json.dumps(v, indent=2)]: renderings of the interpreter and of the
    [json] library. *)
Variable py_str : json -> str.
Variable json_dumps : json -> str.

(** [f"{v}"] *)
Definition format_value (v : json) : str :=
  match v with
  | JStr s => s
  | _ => py_str v
  end.

(** [OpenAIApiClient(api_key)]: [api_key or os.environ.get(...)] *)
Definition OpenAIApiClient_init (key : option str) : M OpenAIApiClient :=
  match key with
  | Some k =>
      if truthy k then mret {| api_key := Some k |}
      else e ← environ_get OPENAI_API_KEY; mret {| api_key := e |}
  | None => e ← environ_get OPENAI_API_KEY; mret {| api_key := e |}
  end.

Definition _create_request_data (prompt model : str) (max_tokens : Z)
    (temperature : float) : request_data :=
  {| rd_prompt := prompt; rd_model := model; rd_max_tokens := max_tokens;
     rd_temperature := temperature; rd_top_p := 1 |}.

Definition _create_headers (self : OpenAIApiClient) : list (str * str) :=
  [ (lit "Content-Type", lit "application/json");
    (lit "Authorization", lit "Bearer " ++ format_optional (api_key self)) ].

(** The POST that [_send_request] issues for a payload and headers. *)
Definition request_for (data : request_data) (headers : list (str * str))
    : http_request :=
  {| rq_host := url_hostname; rq_path := url_path;
     rq_body := data; rq_headers := headers |}.

(** One POST; nothing is caught, so what the libraries raise leaves
    the method as it is. *)
Definition _send_request (data : request_data) (headers : list (str * str))
    : M json := fun w =>
  let rq := request_for data headers in
  match endpoint w rq with
  | Decoded response => (Ok response, log (EvHttp rq) w)
  | TransportFails k => (Raise (LibraryError k), log (EvHttp rq) w)
  end.

Definition _check_response (response : json) : M bool :=
  has_choices ← lift (py_contains (lit "choices") response);
  if negb has_choices then
    has_error ← lift (py_contains (lit "error") response);
    (if (has_error : bool) then
       err ← lift (py_getitem response (lit "error"));
       has_message ← lift (py_contains (lit "message") err);
       error ← (if (has_message : bool) then
                  err1 ← lift (py_getitem response (lit "error"));
                  lift (py_getitem err1 (lit "message"))
                else lift (py_getitem response (lit "error")));
       print_stderr (in_red (format_value error))
     else
       print_stderr (in_red (json_dumps response)) : M unit);;
    mret false
  else mret true.

Definition _get_completion (response : json) : result str :=
  match py_getitem response (lit "choices") with
  | Raise e => Raise e
  | Ok choices =>
      match py_getitem0 choices with
      | Raise e => Raise e
      | Ok first =>
          match py_getitem first (lit "text") with
          | Raise e => Raise e
          | Ok text => py_strip text
          end
      end
  end.

(** The two messages a rejected completion is raised with. *)
Definition no_marker_message (completion : str) : str :=
  lit "OpenAI API commit message incorrect header symbol:" ++ [nl] ++ completion.
Definition generic_opening_message (completion : str) : str :=
  lit "OpenAI API bad commit message:" ++ [nl] ++ lit "'" ++ completion ++ lit "'".

Definition get_suggested_commit_message (self : OpenAIApiClient)
    (prompt model : str) (max_tokens : Z) (temperature : float) : M str :=
  let request_data := _create_request_data prompt model max_tokens temperature in
  let headers := _create_headers self in
  response ← _send_request request_data headers;
  valid ← _check_response response;
  when (negb valid)
    (raise (OpenAIApiException (lit "OpenAI API returned an invalid response")));;
  completion ← lift (_get_completion response);
  open_append prompt_file completion;;
  when (negb (startswith completion marker))
    (raise (OpenAIBadCompletionException (no_marker_message completion)));;
  when (startswith completion marker_update)
    (raise (OpenAIBadCompletionException (generic_opening_message completion)));;
  mret completion.

(** The defaults of the method's signature. *)
Definition default_max_tokens : Z := 256.
Definition default_temperature : float := 0.85%float.

Definition check_abort : M unit :=
  path ← sys_argv 1;
  line ← open_readline path;
  when (truthy (strip line))
    (print (lit "Commit message already exists, exiting");; sys_exit 0);;
  has_key ← environ_has OPENAI_API_KEY;
  when (negb has_key)
    (print ([esc] ++ lit "[0;31mOpenAI suggestion failed: OPENAI_API_KEY not set"
            ++ [esc] ++ lit "[0m");;
     sys_exit 1).

(** The checks both [git] helpers make on a finished subprocess. *)
Definition check_process (r : CompletedProcess) : M unit :=
  when (truthy (stderr r)) (print (stderr_report (stderr r)));;
  when (negb (returncode r =? 0)%Z) (raise (Exception (lit "git diff failed"))).

Definition get_status_text : M str :=
  r ← subprocess_run [lit "git"; lit "status"; lit "--short"; lit "--untracked-files=no"];
  check_process r;;
  mret (stdout r).

Definition default_excluded : list str := [lit "package-lock.json"; lit "yarn.lock"].

Definition diff_length_limit : nat := N.to_nat 10000.

(** The two [git diff] command lines of [get_diff_text]. *)
Definition name_only_command : list str :=
  [lit "git"; lit "diff"; lit "--cached"; lit "--name-only";
   lit "--diff-filter=ACMRTUXB"].
Definition diff_command (staged_changes : list str) : list str :=
  [lit "git"; lit "diff"; lit "--cached"; lit "--no-color";
   lit "--no-ext-diff"; lit "--unified=0"; lit "--no-prefix"]
  ++ staged_changes.

(** The staged file names that are not excluded. *)
Definition staged_changes_of (excluded : list str) (names : str) : list str :=
  filter (fun filename => filename ∉ excluded) (splitlines names).

Definition get_diff_text (excluded : list str) : M str :=
  r ← subprocess_run name_only_command;
  check_process r;;
  let staged_changes := staged_changes_of excluded (stdout r) in
  let args := diff_command staged_changes in
  r2 ← subprocess_run args;
  check_process r2;;
  mret (slice_to diff_length_limit (stdout r2)).

Definition main : M unit :=
  check_abort;;
  git_status_text ← get_status_text;
  git_diff_text ← get_diff_text default_excluded;
  let model := default_model in
  let prompt := get_prompt model git_status_text git_diff_text in
  open_write prompt_file prompt;;
  print (lit "Getting suggested commit message...");;
  client ← OpenAIApiClient_init None;
  suggested_commit_message ←
    get_suggested_commit_message client prompt model default_max_tokens default_temperature;
  path ← sys_argv 1;
  os_remove path;;
  path2 ← sys_argv 1;
  open_write path2 suggested_commit_message;;
  print (@nil N);;
  path3 ← sys_argv 1;
  print (lit "Wrote suggested commit message to " ++ path3);;
  print (@nil N);;
  for_each (splitlines suggested_commit_message)
    (fun line => print (lit "> " ++ [esc] ++ lit "[0;90m" ++ line ++ [esc] ++ lit "[0m")).

(** The hook as a process: its exit status and what it leaves behind. *)
Definition run_hook (w : World) : Z * World :=
  let (r, w') := main w in (exit_status r, w').

End Hook.

(** The world after [open(".prompt", "a")] took [completion]. *)
Definition appended (completion : str) (w : World) : World :=
  log (EvWrite prompt_file ModeA completion)
      (set_files (<[prompt_file := default [] (files w !! prompt_file) ++ completion]>
                    (files w)) w).

(** The acceptance rules of [get_suggested_commit_message] on an extracted
    completion, as one value. *)
Definition acceptance (completion : str) : result str :=
  if negb (startswith completion marker)
  then Raise (OpenAIBadCompletionException (no_marker_message completion))
  else if startswith completion marker_update
  then Raise (OpenAIBadCompletionException (generic_opening_message completion))
  else Ok completion.

(** ** Sample runs *)

(** A rendering for the sample runs, none of which prints a value that is
    not a string. *)
Definition sample_render : json -> str := fun _ => lit "<value>".

Definition sample_path : str := lit ".git/COMMIT_EDITMSG".

Definition sample_status : str := lit "M  file.py" ++ [nl].

Definition sample_diff : str :=
  lit "@@ -1 +1 @@" ++ [nl] ++ lit "-old" ++ [nl] ++ lit "+new" ++ [nl].

(** [git status] answers with the status, every [git diff] with the diff. *)
Definition sample_git (args : list str) : CompletedProcess :=
  if bool_decide (args !! 1%nat = Some (lit "status"))
  then {| stdout := sample_status; stderr := []; returncode := 0 |}
  else if bool_decide (lit "--name-only" ∈ args)
  then {| stdout := lit "file.py" ++ [nl]; stderr := []; returncode := 0 |}
  else {| stdout := sample_diff; stderr := []; returncode := 0 |}.

Definition sample_suggestion : str :=
  [robot] ++ lit " Improve file.py handling" ++ [nl; nl]
  ++ lit "(commit message written by OpenAI text-davinci-003)".

(** A response with one choice carrying [text]. *)
Definition response_with_text (text : str) : json :=
  JDict [(lit "choices", JList [JDict [(lit "text", JStr text)]])].

(** A world in which the commit message starts as [message] and the
    endpoint answers every request with [reply]. *)
Definition sample_world (message : str) (reply : http_reply) : World :=
  {| argv := [lit "prepare-commit-msg"; sample_path];
     environ := {[ OPENAI_API_KEY := lit "sk-sample" ]};
     files := <[ prompt_file := lit "(an older prompt)" ]> {[ sample_path := message ]};
     git := sample_git;
     endpoint := fun _ => reply;
     trace := [] |}.

(** The same world with no credential in the environment. *)
Definition without_credential (w : World) : World :=
  {| argv := argv w; environ := ∅; files := files w;
     git := git w; endpoint := endpoint w; trace := trace w |}.

Definition sample_client : OpenAIApiClient := {| api_key := Some (lit "sk-sample") |}.

Definition sample_prompt : str :=
  get_prompt default_model sample_status sample_diff.

(** A response whose ["error"] is a string that mentions a message. *)
Definition string_error_response : json :=
  JDict [(lit "error", JStr (lit "message quota exceeded"))].

(** A response whose ["error"] is the object the service documents. *)
Definition rate_limited_response : json :=
  JDict [(lit "error", JDict [(lit "message", JStr (lit "rate limited"))])].

(** Worlds whose endpoint answers with a completion: one that the rules
    accept, one with the generic opening, one without the marker, and one
    with no choice at all. *)
Definition accepted_world : World :=
  sample_world [] (Decoded (response_with_text (lit "  " ++ sample_suggestion ++ [nl]))).
Definition generic_world : World :=
  sample_world [] (Decoded (response_with_text ([robot] ++ lit " Update deps"))).
Definition unmarked_world : World :=
  sample_world [] (Decoded (response_with_text (lit "Fix bug"))).
Definition no_choice_world : World :=
  sample_world [] (Decoded (JDict [(lit "choices", JList [])])).

(** The request the sample client sends for the sample prompt. *)
Definition sample_request : http_request :=
  request_for (_create_request_data sample_prompt default_model
                 default_max_tokens default_temperature)
              (_create_headers sample_client).

(** A [git] whose diff is one character longer than the limit. *)
Definition long_diff_git (args : list str) : CompletedProcess :=
  if bool_decide (lit "--name-only" ∈ args)
  then {| stdout := lit "file.py" ++ [nl]; stderr := []; returncode := 0 |}
  else {| stdout := replicate (S diff_length_limit) 43; stderr := []; returncode := 0 |}.

Definition long_diff_world : World :=
  {| argv := [lit "prepare-commit-msg"; sample_path];
     environ := {[ OPENAI_API_KEY := lit "sk-sample" ]};
     files := {[ sample_path := [] ]};
     git := long_diff_git;
     endpoint := fun _ => TransportFails TimedOut;
     trace := [] |}.

(** A commit message that [git] prepared for a merge, in a world with no
    credential and no reachable endpoint. *)
Definition merge_world : World :=
  without_credential
    (sample_world (lit "Merge branch 'main'" ++ [nl]) (TransportFails DnsFailure)).

(** A world whose endpoint cannot be resolved. *)
Definition unreachable_world : World :=
  sample_world [] (TransportFails DnsFailure).

(** ** Notions the properties are stated with *)

(** The two instructions of the template on the form of the answer. *)
Definition marker_instruction : str :=
  lit "The first two characters should be " ++ quoted marker.
Definition no_update_instruction : str :=
  lit "avoid starting the message with " ++ quoted marker_update.

(** The world the skip of [check_abort] leaves: one line on the standard
    output. *)
Definition skipped (w : World) : World :=
  log (EvStdout (lit "Commit message already exists, exiting" ++ [nl])) w.

(** The second subprocess of [get_diff_text]: the diff of the staged files
    that are not excluded. *)
Definition diff_process (excluded : list str) (w : World) : CompletedProcess :=
  git w (diff_command (staged_changes_of excluded (stdout (git w name_only_command)))).

(** Follows the spec's words: what validation shows of a response object
    without ["choices"] is the nested ["message"] of its ["error"] when
    present, otherwise the whole ["error"] value when there is one,
    otherwise the pretty-printed body. *)
Definition spec_diagnostic (py_str json_dumps : json -> str)
    (d : list (str * json)) : str :=
  match dict_get d (lit "error") with
  | None => json_dumps (JDict d)
  | Some (JDict e) =>
      match dict_get e (lit "message") with
      | Some m => format_value py_str m
      | None => format_value py_str (JDict e)
      end
  | Some err => format_value py_str err
  end.

(** [needle] occurs in [hay] as a contiguous run. *)
Definition substring (needle hay : str) : Prop :=
  exists pre post, hay = pre ++ needle ++ post.

(** A failure the completion client raises itself: one of its two
    exception classes. *)
Definition client_failure {A : Type} (r : result A) : Prop :=
  exists e, r = Raise e /\ is_api_exception e = true.

(** Two worlds with the same arguments, environment, [git] and endpoint:
    what no effect of the hook touches. *)
Definition same_setting (w w' : World) : Prop :=
  argv w' = argv w /\ environ w' = environ w
  /\ git w' = git w /\ endpoint w' = endpoint w.

Definition keeps_setting {A : Type} (m : M A) : Prop :=
  forall w, same_setting w (m w).2.

Definition is_stdout (e : event) : Prop :=
  match e with
  | EvStdout _ => True
  | _ => False
  end.

(** A computation that only prints: the files stay, the trace grows by
    lines on the standard output. *)
Definition only_prints {A : Type} (m : M A) : Prop :=
  forall w, files (m w).2 = files w
            /\ exists out, trace (m w).2 = trace w ++ out /\ Forall is_stdout out.

(** The world in which [main] calls the client, after the prompt went to
    the debug file and the progress line to the standard output. *)
Definition before_request (prompt : str) (w : World) : World :=
  log (EvStdout (lit "Getting suggested commit message..." ++ [nl]))
      (log (EvWrite prompt_file ModeW prompt)
           (set_files (<[prompt_file := prompt]> (files w)) w)).

(** The client [main] constructs in a world. *)
Definition client_of (w : World) : OpenAIApiClient :=
  {| api_key := environ w !! OPENAI_API_KEY |}.

(** [main] gets as far as the request: no abort, both [git] helpers
    succeed; [prompt] is the prompt and [w'] the world of the call. *)
Definition reaches_request (w : World) (prompt : str) (w' : World) : Prop :=
  exists w1 w2 w3 status_text diff_text,
    check_abort w = (Ok tt, w1)
    /\ get_status_text w1 = (Ok status_text, w2)
    /\ get_diff_text default_excluded w2 = (Ok diff_text, w3)
    /\ prompt = get_prompt default_model status_text diff_text
    /\ w' = before_request prompt w3.

(** A line with nothing but whitespace in it (or nothing at all). *)
Definition blank (s : str) : Prop :=
  forall c, c ∈ s -> is_space c = true.

(** The line [check_abort] prints when the credential is not set. *)
Definition missing_credential_line : str :=
  [esc] ++ lit "[0;31mOpenAI suggestion failed: OPENAI_API_KEY not set"
  ++ [esc] ++ lit "[0m".

(** What [check_process] prints for a finished subprocess: its standard
    error, in red, when there is any. *)
Definition process_report (r : CompletedProcess) : list event :=
  if truthy (stderr r) then [EvStdout (stderr_report (stderr r) ++ [nl])] else [].

(** The world after [check_process] printed its report on [r]. *)
Definition after_report (r : CompletedProcess) (w : World) : World :=
  if truthy (stderr r)
  then log (EvStdout (stderr_report (stderr r) ++ [nl])) w
  else w.

(** The exception of both [git] helpers. *)
Definition git_failed : exn := Exception (lit "git diff failed").

(** A computation that leaves every file but the debug file as it is. *)
Definition keeps_other_files {A : Type} (m : M A) : Prop :=
  forall w p, p <> prompt_file -> files (m w).2 !! p = files w !! p.

(** Every file but the debug file is in [w'] as it is in [w]. *)
Definition other_files_same (w w' : World) : Prop :=
  forall p, p <> prompt_file -> files w' !! p = files w !! p.

(** A computation that never ends the process by [exit]. *)
Definition never_exits {A : Type} (m : M A) : Prop :=
  forall w code, (m w).1 <> Raise (SystemExit code).

Definition is_http (e : event) : Prop :=
  match e with
  | EvHttp _ => True
  | _ => False
  end.

(** A [git] with two lock files and one source file staged, the lock file
    of a subdirectory among them. *)
Definition lock_files_git (args : list str) : CompletedProcess :=
  if bool_decide (lit "--name-only" ∈ args)
  then {| stdout := lit "package-lock.json" ++ [nl] ++ lit "web/yarn.lock" ++ [nl]
                    ++ lit "src/app.js" ++ [nl];
          stderr := []; returncode := 0 |}
  else {| stdout := sample_diff; stderr := []; returncode := 0 |}.

Definition lock_files_world : World :=
  {| argv := [lit "prepare-commit-msg"; sample_path];
     environ := {[ OPENAI_API_KEY := lit "sk-sample" ]};
     files := {[ sample_path := [] ]};
     git := lock_files_git;
     endpoint := fun _ => TransportFails TimedOut;
     trace := [] |}.

(** * Properties *)

(** ** Strings *)

Lemma startswith_prefix (s p : str) :
  startswith s p = true <-> p `prefix_of` s.
Proof.
  revert s. induction p as [|a p IH]; intros s; simpl.
  - split; [intros _; apply prefix_nil | done].
  - destruct s as [|b s].
    + split; [done | intros [k Hk]; discriminate Hk].
    + rewrite andb_true_iff, N.eqb_eq, IH. split.
      * intros [-> Hp]. by apply prefix_cons.
      * intros [k Hk]. injection Hk as -> ->. split; [done | by exists k].
Qed.

Lemma startswith_not_prefix (s p : str) :
  startswith s p = false <-> ~ p `prefix_of` s.
Proof.
  rewrite <- startswith_prefix. destruct (startswith s p); split; congruence.
Qed.

Lemma substring_app_l (needle hay pre : str) :
  substring needle hay -> substring needle (pre ++ hay).
Proof.
  intros (a & b & ->). exists (pre ++ a), b. by rewrite <- app_assoc.
Qed.

Lemma substring_app_r (needle hay post : str) :
  substring needle hay -> substring needle (hay ++ post).
Proof.
  intros (a & b & ->). exists a, (b ++ post). by rewrite <- !app_assoc.
Qed.

Lemma substring_refl (s : str) : substring s s.
Proof. exists [], []. by rewrite app_nil_r. Qed.

Lemma lstrip_nonempty (s : str) :
  lstrip s <> [] <-> exists c, c ∈ s /\ is_space c = false.
Proof.
  induction s as [|x s IH]; simpl.
  - split; [done | intros (c & Hin & _); by apply elem_of_nil in Hin].
  - destruct (is_space x) eqn:Hx.
    + rewrite IH. split.
      * intros (c & Hin & Hc). exists c. split; [by right | done].
      * intros (c & Hin & Hc). apply elem_of_cons in Hin as [-> | Hin];
          [congruence | eauto].
    + split; [intros _; exists x; split; [by left | done] | done].
Qed.

Lemma lstrip_head (s : str) (d : N) (t : str) :
  lstrip s = d :: t -> is_space d = false.
Proof.
  induction s as [|x s IH]; simpl; [done |].
  destruct (is_space x) eqn:Hx; [done |]. by injection 1 as -> _.
Qed.

Lemma lstrip_suffix (s : str) : lstrip s `suffix_of` s.
Proof.
  induction s as [|c s IH]; simpl; [done |].
  destruct (is_space c); [by apply suffix_cons_r | done].
Qed.

(** What is left of a string after [strip] is non-empty exactly when the
    string has a character that is not whitespace. *)
Lemma truthy_strip (s : str) :
  truthy (strip s) = true <-> exists c, c ∈ s /\ is_space c = false.
Proof.
  assert (Ht : forall t : str, truthy t = true <-> t <> []).
  { intros [|? ?]; simpl; split; congruence. }
  assert (Hrev : forall t : str, reverse t <> [] <-> t <> []).
  { intros t. split; intros H E; apply H.
    - by rewrite E.
    - apply (f_equal reverse) in E. by rewrite reverse_involutive in E. }
  rewrite Ht. unfold strip, rstrip. rewrite Hrev, lstrip_nonempty. split.
  - intros (c & Hin & Hc). exists c. split; [| done].
    rewrite elem_of_reverse in Hin.
    destruct (lstrip_suffix s) as [k Hk]. rewrite Hk.
    apply elem_of_app. by right.
  - intros Hs. apply lstrip_nonempty in Hs.
    destruct (lstrip s) as [|d t] eqn:E; [done |].
    exists d. split; [| by apply (lstrip_head s d t)].
    rewrite elem_of_reverse. by left.
Qed.

(** ** Computations *)

Lemma bind_unfold {A B : Type} (m : M A) (k : A -> M B) (w : World) :
  (m ≫= k) w =
  match m w with
  | (Ok a, w') => k a w'
  | (Raise e, w') => (Raise e, w')
  end.
Proof. reflexivity. Qed.

Lemma ret_unfold {A : Type} (a : A) (w : World) : (mret a : M A) w = (Ok a, w).
Proof. reflexivity. Qed.

Lemma bind_Ok_inv {A B : Type} (m : M A) (k : A -> M B) (w w' : World) (b : B) :
  (m ≫= k) w = (Ok b, w') ->
  exists a w1, m w = (Ok a, w1) /\ k a w1 = (Ok b, w').
Proof.
  rewrite bind_unfold. destruct (m w) as [[a|e] w1]; [eauto | done].
Qed.

Lemma when_Ok_inv (cond : bool) (body : M unit) (w w' : World) (u : unit) :
  when cond body w = (Ok u, w') ->
  (cond = false /\ w' = w) \/ (cond = true /\ body w = (Ok u, w')).
Proof.
  destruct cond; simpl; [by right |].
  rewrite ret_unfold. injection 1 as _ <-. by left.
Qed.

Lemma when_raise_Ok_inv (cond : bool) (e : exn) (w w' : World) (u : unit) :
  when cond (raise e) w = (Ok u, w') -> cond = false /\ w' = w.
Proof. intros H. by apply when_Ok_inv in H as [H | [_ H]]. Qed.

(** ** The completion client *)

Section Client.

Variable py_str : json -> str.
Variable json_dumps : json -> str.

(** Validation writes nothing when it succeeds, and it succeeds exactly
    when ["choices" in response] does. *)
Lemma check_response_true (response : json) (w w' : World) :
  _check_response py_str json_dumps response w = (Ok true, w') <->
  py_contains (lit "choices") response = Ok true /\ w' = w.
Proof.
  unfold _check_response. rewrite bind_unfold. unfold lift at 1.
  destruct (py_contains (lit "choices") response) as [[|]|e];
    cbv beta iota; cbn [negb]; cbv iota.
  - rewrite ret_unfold. split; [by injection 1 as <- | by intros [_ ->]].
  - split; [| by intros [? _]]. intros H.
    apply bind_Ok_inv in H as (? & ? & _ & H).
    apply bind_Ok_inv in H as (? & ? & _ & H).
    by rewrite ret_unfold in H.
  - split; [done | by intros [? _]].
Qed.

(** The method once the response is decoded and validated: extraction,
    the append to the debug file, then the acceptance rules. *)
Lemma suggestion_after_validation (self : OpenAIApiClient) (prompt model : str)
    (max_tokens : Z) (temperature : float) (w w1 w2 : World) (response : json) :
  _send_request (_create_request_data prompt model max_tokens temperature)
                (_create_headers self) w = (Ok response, w1) ->
  _check_response py_str json_dumps response w1 = (Ok true, w2) ->
  get_suggested_commit_message py_str json_dumps self prompt model max_tokens temperature w =
  match _get_completion response with
  | Raise e => (Raise e, w1)
  | Ok completion => (acceptance completion, appended completion w1)
  end.
Proof.
  intros Hsend Hcheck.
  pose proof Hcheck as Hc. apply check_response_true in Hc as [_ ->].
  unfold get_suggested_commit_message. cbv zeta.
  rewrite bind_unfold, Hsend. rewrite bind_unfold, Hcheck.
  rewrite bind_unfold. cbn [negb]. unfold when at 1. rewrite ret_unfold.
  rewrite bind_unfold. unfold lift at 1.
  destruct (_get_completion response) as [completion|e]; [| done].
  rewrite bind_unfold. unfold open_append at 1. fold (appended completion w1).
  unfold acceptance.
  rewrite bind_unfold.
  destruct (startswith completion marker); cbn [negb]; unfold when at 1;
    [| done].
  rewrite ret_unfold, bind_unfold.
  destruct (startswith completion marker_update); unfold when at 1; done.
Qed.

(** The method when the round trip fails: the library's exception leaves
    it as it is, before validation, extraction and the append. *)
Lemma suggestion_transport_failure (self : OpenAIApiClient) (prompt model : str)
    (max_tokens : Z) (temperature : float) (w : World) (k : transport_failure) :
  let rq := request_for (_create_request_data prompt model max_tokens temperature)
                        (_create_headers self) in
  endpoint w rq = TransportFails k ->
  get_suggested_commit_message py_str json_dumps self prompt model max_tokens temperature w =
  (Raise (LibraryError k), log (EvHttp rq) w).
Proof.
  intros rq Hk. unfold get_suggested_commit_message. cbv zeta.
  rewrite bind_unfold. unfold _send_request. cbv zeta. fold rq. by rewrite Hk.
Qed.

(** The method when validation says no: the error of the client's own. *)
Lemma suggestion_invalid_response (self : OpenAIApiClient) (prompt model : str)
    (max_tokens : Z) (temperature : float) (w w1 w2 : World) (response : json) :
  _send_request (_create_request_data prompt model max_tokens temperature)
                (_create_headers self) w = (Ok response, w1) ->
  _check_response py_str json_dumps response w1 = (Ok false, w2) ->
  get_suggested_commit_message py_str json_dumps self prompt model max_tokens temperature w =
  (Raise (OpenAIApiException (lit "OpenAI API returned an invalid response")), w2).
Proof.
  intros Hsend Hcheck. unfold get_suggested_commit_message. cbv zeta.
  rewrite bind_unfold, Hsend. rewrite bind_unfold, Hcheck.
  rewrite bind_unfold. by cbn [negb].
Qed.

(** The method when validation itself raises. *)
Lemma suggestion_check_raises (self : OpenAIApiClient) (prompt model : str)
    (max_tokens : Z) (temperature : float) (w w1 w2 : World) (response : json)
    (e : exn) :
  _send_request (_create_request_data prompt model max_tokens temperature)
                (_create_headers self) w = (Ok response, w1) ->
  _check_response py_str json_dumps response w1 = (Raise e, w2) ->
  get_suggested_commit_message py_str json_dumps self prompt model max_tokens temperature w =
  (Raise e, w2).
Proof.
  intros Hsend Hcheck. unfold get_suggested_commit_message. cbv zeta.
  rewrite bind_unfold, Hsend. by rewrite bind_unfold, Hcheck.
Qed.

Lemma send_request_Ok (data : request_data) (headers : list (str * str))
    (w w1 : World) (response : json) :
  _send_request data headers w = (Ok response, w1) <->
  endpoint w (request_for data headers) = Decoded response
  /\ w1 = log (EvHttp (request_for data headers)) w.
Proof.
  unfold _send_request. cbv zeta.
  destruct (endpoint w (request_for data headers)) as [k|j].
  - split; [done | by intros [? _]].
  - split; [by injection 1 as -> <- | by intros [[= ->] ->]].
Qed.

(** ** The acceptance rules *)

Lemma acceptance_Ok (completion s : str) :
  acceptance completion = Ok s <->
  s = completion /\ marker `prefix_of` completion
  /\ ~ marker_update `prefix_of` completion.
Proof.
  unfold acceptance. rewrite <- startswith_prefix, <- startswith_not_prefix.
  destruct (startswith completion marker), (startswith completion marker_update);
    cbn [negb]; split; try done.
  - by intros (_ & _ & ?).
  - by injection 1 as <-.
  - by intros (-> & _ & _).
  - by intros (_ & ? & _).
  - by intros (_ & ? & _).
Qed.

Lemma acceptance_rejects (completion : str) :
  (exists msg, acceptance completion = Raise (OpenAIBadCompletionException msg)) <->
  ~ marker `prefix_of` completion \/ marker_update `prefix_of` completion.
Proof.
  unfold acceptance. rewrite <- startswith_not_prefix, <- startswith_prefix.
  destruct (startswith completion marker), (startswith completion marker_update);
    cbn [negb]; split; eauto.
  - by intros [? ?].
  - by intros [? | ?].
Qed.

(** A rejection carries the rejected text, and is the only failure of the
    rules. *)
Lemma acceptance_raises (completion : str) (e : exn) :
  acceptance completion = Raise e ->
  exists msg, e = OpenAIBadCompletionException msg /\ substring completion msg.
Proof.
  unfold acceptance.
  destruct (startswith completion marker); cbn [negb];
    [destruct (startswith completion marker_update) |]; [| done |].
  - injection 1 as <-. eexists. split; [done |].
    unfold generic_opening_message.
    exists (lit "OpenAI API bad commit message:" ++ [nl] ++ lit "'"), (lit "'").
    by rewrite <- !app_assoc.
  - injection 1 as <-. eexists. split; [done |].
    unfold no_marker_message.
    exists (lit "OpenAI API commit message incorrect header symbol:" ++ [nl]), [].
    by rewrite app_nil_r, <- app_assoc.
Qed.

(** C1: every string that [get_suggested_commit_message] returns is
    non-empty, begins with the marker (the robot emoji and one space) and
    does not begin with the marker followed by [Update]. *)
Theorem suggestion_satisfies_invariant (self : OpenAIApiClient)
    (prompt model : str) (max_tokens : Z) (temperature : float)
    (w w' : World) (s : str) :
  get_suggested_commit_message py_str json_dumps self prompt model max_tokens temperature w
  = (Ok s, w') ->
  s <> [] /\ marker `prefix_of` s /\ ~ marker_update `prefix_of` s.
Proof.
  intros H. pose proof H as H0.
  unfold get_suggested_commit_message in H0. cbv zeta in H0.
  apply bind_Ok_inv in H0 as (response & w1 & Hsend & H0).
  apply bind_Ok_inv in H0 as (valid & w2 & Hcheck & H0).
  apply bind_Ok_inv in H0 as (u & w3 & Hvalid & _).
  apply when_raise_Ok_inv in Hvalid as [Hvalid _].
  apply negb_false_iff in Hvalid. subst valid.
  rewrite (suggestion_after_validation _ _ _ _ _ _ _ _ _ Hsend Hcheck) in H.
  destruct (_get_completion response) as [c|e]; [| done].
  injection H as H _. apply acceptance_Ok in H as (-> & Hm & Hu).
  split; [| done]. intros ->. destruct Hm as [k Hk]. discriminate Hk.
Qed.



(** C10: when ["choices"] is there and is the empty list, validation
    succeeds and extraction raises [IndexError], which is neither of the
    client's exceptions; the method returns nothing and appends nothing. *)
Theorem empty_choices_raise_index_error (self : OpenAIApiClient)
    (prompt model : str) (max_tokens : Z) (temperature : float)
    (w w1 : World) (d : list (str * json)) :
  _send_request (_create_request_data prompt model max_tokens temperature)
                (_create_headers self) w = (Ok (JDict d), w1) ->
  dict_get d (lit "choices") = Some (JList []) ->
  _check_response py_str json_dumps (JDict d) w1 = (Ok true, w1)
  /\ _get_completion (JDict d) = Raise IndexError
  /\ get_suggested_commit_message py_str json_dumps self prompt model
       max_tokens temperature w = (Raise IndexError, w1)
  /\ is_api_exception IndexError = false
  /\ is_bad_completion IndexError = false
  /\ exit_status (Raise IndexError) = 1%Z.
Proof.
  intros Hsend Hd.
  assert (Hcheck : _check_response py_str json_dumps (JDict d) w1 = (Ok true, w1)).
  { apply check_response_true. split; [| done]. unfold py_contains. by rewrite Hd. }
  assert (Hext : _get_completion (JDict d) = Raise IndexError).
  { unfold _get_completion, py_getitem. by rewrite Hd. }
  split; [done |]. split; [done |]. split; [| done].
  by rewrite (suggestion_after_validation _ _ _ _ _ _ _ _ _ Hsend Hcheck), Hext.
Qed.

(** Validation of a response object without ["choices"] whose ["error"],
    if any, is an object (as the service documents it) or holds no
    ["message"]: the diagnostic of the spec goes to the standard error
    stream in red and the response is invalid. *)
Lemma check_response_reports (d : list (str * json)) (w : World) :
  dict_get d (lit "choices") = None ->
  match dict_get d (lit "error") with
  | None | Some (JDict _) => True
  | Some err => py_contains (lit "message") err = Ok false
  end ->
  _check_response py_str json_dumps (JDict d) w =
  (Ok false, log (EvStderr (in_red (spec_diagnostic py_str json_dumps d) ++ [nl])) w).
Proof.
  intros Hc He. unfold _check_response, spec_diagnostic.
  rewrite bind_unfold. unfold lift at 1, py_contains at 1. rewrite Hc.
  cbv beta iota. cbn [negb]. cbv iota.
  rewrite bind_unfold. unfold lift at 1, py_contains at 1.
  destruct (dict_get d (lit "error")) as [err|] eqn:E; cbv beta iota; [| done].
  rewrite !bind_unfold. unfold lift at 1, py_getitem at 1. rewrite E.
  cbv beta iota. rewrite !bind_unfold. unfold lift at 1.
  destruct err as [| | | | |l|e]; try (rewrite He; cbv beta iota;
    rewrite bind_unfold; unfold lift at 1, py_getitem at 1; rewrite E; done).
  unfold py_contains at 1.
  destruct (dict_get e (lit "message")) as [m|] eqn:Em; cbv beta iota.
  - rewrite !bind_unfold. unfold lift at 1, py_getitem at 1. rewrite E.
    cbv beta iota. unfold lift at 1, py_getitem at 1. by rewrite Em.
  - rewrite bind_unfold. unfold lift at 1, py_getitem at 1. by rewrite E.
Qed.

(** C3, at the input where the code parts from it: a response object
    without ["choices"] whose ["error"] is a string that mentions
    [message]. The spec's diagnostic is that string; validation instead
    raises [TypeError] with nothing written, and so does the method, where
    the claim has an API-response error. *)
Theorem string_error_value_raises_type_error (w : World) :
  py_contains (lit "choices") string_error_response = Ok false
  /\ spec_diagnostic py_str json_dumps [(lit "error", JStr (lit "message quota exceeded"))]
     = lit "message quota exceeded"
  /\ _check_response py_str json_dumps string_error_response w = (Raise TypeError, w)
  /\ (forall self prompt model max_tokens temperature w1,
        _send_request (_create_request_data prompt model max_tokens temperature)
                      (_create_headers self) w = (Ok string_error_response, w1) ->
        get_suggested_commit_message py_str json_dumps self prompt model
          max_tokens temperature w = (Raise TypeError, w1))
  /\ is_api_exception TypeError = false.
Proof.
  assert (Hcheck : forall w0,
             _check_response py_str json_dumps string_error_response w0
             = (Raise TypeError, w0)) by done.
  split; [done |]. split; [done |]. split; [done |]. split; [| done].
  intros self prompt model max_tokens temperature w1 Hsend.
  apply (suggestion_check_raises _ _ _ _ _ _ _ _ _ _ Hsend (Hcheck w1)).
Qed.

End Client.

(** The sample runs of the client. *)

Lemma suggestion_satisfies_invariant_witness :
  sample_suggestion <> [] /\ marker `prefix_of` sample_suggestion
  /\ ~ marker_update `prefix_of` sample_suggestion.
Proof.
  apply (suggestion_satisfies_invariant sample_render sample_render sample_client
           sample_prompt default_model default_max_tokens default_temperature
           accepted_world
           (appended sample_suggestion (log (EvHttp sample_request) accepted_world))).
  vm_compute. reflexivity.
Defined.



Lemma empty_choices_raise_index_error_witness :
  get_suggested_commit_message sample_render sample_render sample_client
    sample_prompt default_model default_max_tokens default_temperature
    no_choice_world
  = (Raise IndexError, log (EvHttp sample_request) no_choice_world).
Proof.
  apply (empty_choices_raise_index_error sample_render sample_render
           sample_client sample_prompt default_model default_max_tokens
           default_temperature no_choice_world
           (log (EvHttp sample_request) no_choice_world)
           [(lit "choices", JList [])]).
  - vm_compute. reflexivity.
  - vm_compute. reflexivity.
Defined.

(** The error object of the service: its message reaches the standard error
    stream, in red, and the method raises the client's own exception. *)
Lemma rate_limited_reported (w : World) :
  endpoint w sample_request = Decoded rate_limited_response ->
  get_suggested_commit_message sample_render sample_render sample_client
    sample_prompt default_model default_max_tokens default_temperature w
  = (Raise (OpenAIApiException (lit "OpenAI API returned an invalid response")),
     log (EvStderr (in_red (lit "rate limited") ++ [nl]))
         (log (EvHttp sample_request) w)).
Proof.
  intros He.
  apply (suggestion_invalid_response _ _ _ _ _ _ _ _
           (log (EvHttp sample_request) w) _ rate_limited_response).
  - by apply send_request_Ok.
  - by apply (check_response_reports sample_render sample_render
                [(lit "error", JDict [(lit "message", JStr (lit "rate limited"))])]).
Qed.

(** ** What the effects leave alone *)

Lemma same_setting_refl (w : World) : same_setting w w.
Proof. by repeat split. Qed.

Lemma same_setting_trans (w1 w2 w3 : World) :
  same_setting w1 w2 -> same_setting w2 w3 -> same_setting w1 w3.
Proof.
  intros (? & ? & ? & ?) (? & ? & ? & ?). repeat split; congruence.
Qed.

Lemma keeps_ret {A : Type} (a : A) : keeps_setting (mret a : M A).
Proof. intros w. apply same_setting_refl. Qed.

Lemma keeps_raise {A : Type} (e : exn) : keeps_setting (raise e : M A).
Proof. intros w. apply same_setting_refl. Qed.

Lemma keeps_lift {A : Type} (r : result A) : keeps_setting (lift r).
Proof. intros w. apply same_setting_refl. Qed.

Lemma keeps_bind {A B : Type} (m : M A) (k : A -> M B) :
  keeps_setting m -> (forall a, keeps_setting (k a)) -> keeps_setting (m ≫= k).
Proof.
  intros Hm Hk w. rewrite bind_unfold. specialize (Hm w).
  destruct (m w) as [[a|e] w1]; cbn [snd] in *; [| done].
  by apply (same_setting_trans w w1), Hk.
Qed.

Lemma keeps_when (cond : bool) (body : M unit) :
  keeps_setting body -> keeps_setting (when cond body).
Proof. destruct cond; [done | intros _; apply keeps_ret]. Qed.

Lemma keeps_emit (e : event) : keeps_setting (emit e).
Proof. by intros w. Qed.

Lemma keeps_print (s : str) : keeps_setting (print s).
Proof. apply keeps_emit. Qed.

Lemma keeps_print_stderr (s : str) : keeps_setting (print_stderr s).
Proof. apply keeps_emit. Qed.

Lemma keeps_sys_argv (i : nat) : keeps_setting (sys_argv i).
Proof. intros w. unfold sys_argv. by destruct (argv w !! i). Qed.

Lemma keeps_sys_exit {A : Type} (code : Z) : keeps_setting (sys_exit code : M A).
Proof. apply keeps_raise. Qed.

Lemma keeps_open_readline (path : str) : keeps_setting (open_readline path).
Proof. intros w. unfold open_readline. by destruct (files w !! path). Qed.

Lemma keeps_open_write (path data : str) : keeps_setting (open_write path data).
Proof. by intros w. Qed.

Lemma keeps_open_append (path data : str) : keeps_setting (open_append path data).
Proof. by intros w. Qed.

Lemma keeps_os_remove (path : str) : keeps_setting (os_remove path).
Proof. intros w. unfold os_remove. by destruct (files w !! path). Qed.

Lemma keeps_subprocess_run (args : list str) : keeps_setting (subprocess_run args).
Proof. by intros w. Qed.

Lemma keeps_environ_has (name : str) : keeps_setting (environ_has name).
Proof. by intros w. Qed.

Lemma keeps_environ_get (name : str) : keeps_setting (environ_get name).
Proof. by intros w. Qed.

Lemma keeps_for_each {A : Type} (l : list A) (body : A -> M unit) :
  (forall x, keeps_setting (body x)) -> keeps_setting (for_each l body).
Proof.
  intros Hb. induction l as [|x l IH]; simpl; [apply keeps_ret |].
  apply keeps_bind; [apply Hb | done].
Qed.

Create HintDb setting.
#[local] Hint Resolve keeps_ret keeps_raise keeps_lift keeps_when keeps_emit
  keeps_print keeps_print_stderr keeps_sys_argv keeps_sys_exit
  keeps_open_readline keeps_open_write keeps_open_append keeps_os_remove
  keeps_subprocess_run keeps_environ_has keeps_environ_get keeps_for_each
  : setting.

(** Binds are taken apart, the effects at the leaves are in the hints. *)
Ltac keeps :=
  repeat first [ apply keeps_bind; [| intros ?] | apply keeps_when ];
  auto with setting.

Lemma keeps_check_abort : keeps_setting check_abort.
Proof. unfold check_abort. keeps. Qed.

Lemma keeps_check_process (r : CompletedProcess) : keeps_setting (check_process r).
Proof. unfold check_process. keeps. Qed.

#[local] Hint Resolve keeps_check_abort keeps_check_process : setting.

Lemma keeps_get_status_text : keeps_setting get_status_text.
Proof. unfold get_status_text. keeps. Qed.

Lemma keeps_get_diff_text (excluded : list str) :
  keeps_setting (get_diff_text excluded).
Proof. unfold get_diff_text. cbv zeta. keeps. Qed.

Lemma reaches_request_setting (w w' : World) (prompt : str) :
  reaches_request w prompt w' -> same_setting w w'.
Proof.
  intros (w1 & w2 & w3 & st & d & H1 & H2 & H3 & _ & ->).
  pose proof (keeps_check_abort w) as K1. rewrite H1 in K1.
  pose proof (keeps_get_status_text w1) as K2. rewrite H2 in K2.
  pose proof (keeps_get_diff_text default_excluded w2) as K3. rewrite H3 in K3.
  cbn [snd] in *.
  apply (same_setting_trans w w1); [done |].
  apply (same_setting_trans w1 w2); [done |].
  by apply (same_setting_trans w2 w3).
Qed.

(** ** The driver *)

Lemma sys_argv_Ok (i : nat) (w w' : World) (a : str) :
  sys_argv i w = (Ok a, w') <-> argv w !! i = Some a /\ w' = w.
Proof.
  unfold sys_argv. destruct (argv w !! i) as [x|].
  - split; [by injection 1 as -> <- | by intros [[= ->] ->]].
  - split; [done | by intros [? _]].
Qed.

Lemma os_remove_Ok (path : str) (w w' : World) (u : unit) :
  os_remove path w = (Ok u, w') <->
  is_Some (files w !! path)
  /\ w' = log (EvRemove path) (set_files (delete path (files w)) w).
Proof.
  unfold os_remove. destruct (files w !! path) as [x|]; destruct u.
  - split; [by injection 1 as <- | by intros [_ ->]].
  - split; [done | by intros [[? ?] _]].
Qed.

(** [check_process] on a subprocess that returned 0: at most a report of
    what it wrote to its standard error. *)
Lemma check_process_zero (r : CompletedProcess) (w : World) :
  returncode r = 0%Z ->
  exists w', check_process r w = (Ok tt, w') /\ git w' = git w.
Proof.
  intros Hr. unfold check_process. rewrite bind_unfold, Hr.
  destruct (truthy (stderr r)); eexists; split; reflexivity.
Qed.



Lemma only_prints_ret {A : Type} (a : A) : only_prints (mret a : M A).
Proof.
  intros w. split; [done |]. exists []. by rewrite app_nil_r.
Qed.

Lemma only_prints_bind {A B : Type} (m : M A) (k : A -> M B) :
  only_prints m -> (forall a, only_prints (k a)) -> only_prints (m ≫= k).
Proof.
  intros Hm Hk w. rewrite bind_unfold.
  destruct (Hm w) as (Hf & out & Ht & Ho).
  destruct (m w) as [[a|e] w1]; cbn [snd] in *; [| eauto].
  destruct (Hk a w1) as (Hf' & out' & Ht' & Ho'). split; [congruence |].
  exists (out ++ out'). split; [| by apply Forall_app].
  by rewrite Ht', Ht, <- app_assoc.
Qed.

Lemma only_prints_print (s : str) : only_prints (print s).
Proof.
  intros w. split; [done |]. eexists. split; [done |]. by repeat constructor.
Qed.

Lemma only_prints_sys_argv (i : nat) : only_prints (sys_argv i).
Proof.
  intros w. unfold sys_argv.
  destruct (argv w !! i); (split; [done |]); exists []; by rewrite app_nil_r.
Qed.

Lemma only_prints_for_each {A : Type} (l : list A) (body : A -> M unit) :
  (forall x, only_prints (body x)) -> only_prints (for_each l body).
Proof.
  intros Hb. induction l as [|x l IH]; simpl; [apply only_prints_ret |].
  apply only_prints_bind; [apply Hb | done].
Qed.

Section Driver.

Variable py_str : json -> str.
Variable json_dumps : json -> str.

Lemma keeps_send_request (data : request_data) (headers : list (str * str)) :
  keeps_setting (_send_request data headers).
Proof. intros w. unfold _send_request. cbv zeta. by case_match. Qed.

Lemma keeps_check_response (response : json) :
  keeps_setting (_check_response py_str json_dumps response).
Proof.
  unfold _check_response. keeps.
  case_match; keeps. case_match; keeps. case_match; keeps.
Qed.

Lemma keeps_get_suggested_commit_message (self : OpenAIApiClient)
    (prompt model : str) (max_tokens : Z) (temperature : float) :
  keeps_setting (get_suggested_commit_message py_str json_dumps self prompt
                   model max_tokens temperature).
Proof.
  unfold get_suggested_commit_message. cbv zeta.
  apply keeps_bind; [apply keeps_send_request | intros response].
  apply keeps_bind; [apply keeps_check_response | intros valid].
  keeps.
Qed.

(** [main] from the request on, when the client raises: nothing catches
    the exception. *)
Lemma main_request_raises (w w' w'' : World) (prompt : str) (e : exn) :
  reaches_request w prompt w' ->
  get_suggested_commit_message py_str json_dumps (client_of w') prompt
    default_model default_max_tokens default_temperature w' = (Raise e, w'') ->
  main py_str json_dumps w = (Raise e, w'').
Proof.
  intros (w1 & w2 & w3 & st & d & H1 & H2 & H3 & -> & ->) Hs.
  unfold main. rewrite bind_unfold, H1. rewrite bind_unfold, H2.
  rewrite bind_unfold, H3. cbv zeta.
  rewrite bind_unfold. unfold open_write at 1.
  rewrite bind_unfold. unfold print at 1, emit at 1.
  fold (before_request (get_prompt default_model st d) w3).
  rewrite bind_unfold. unfold OpenAIApiClient_init.
  rewrite bind_unfold. unfold environ_get at 1. rewrite ret_unfold.
  fold (client_of (before_request (get_prompt default_model st d) w3)).
  by rewrite bind_unfold, Hs.
Qed.

(** [main] when it returns: it got to the request, the client returned a
    suggestion, and what follows removed the commit-message file, wrote the
    suggestion to it and printed. *)
Lemma main_Ok_inv (w w' : World) (u : unit) :
  main py_str json_dumps w = (Ok u, w') ->
  exists prompt w1 w2 s path after,
    reaches_request w prompt w1
    /\ get_suggested_commit_message py_str json_dumps (client_of w1) prompt
         default_model default_max_tokens default_temperature w1 = (Ok s, w2)
    /\ argv w !! 1%nat = Some path
    /\ is_Some (files w2 !! path)
    /\ files w' = <[path := s]> (delete path (files w2))
    /\ trace w' = trace w2 ++ [EvRemove path; EvWrite path ModeW s] ++ after
    /\ Forall is_stdout after.
Proof.
  intros H. unfold main in H.
  apply bind_Ok_inv in H as ([] & w1 & H1 & H).
  apply bind_Ok_inv in H as (st & w2 & H2 & H).
  apply bind_Ok_inv in H as (d & w3 & H3 & H). cbv zeta in H.
  rewrite bind_unfold in H. unfold open_write at 1 in H.
  rewrite bind_unfold in H. unfold print at 1, emit at 1 in H.
  fold (before_request (get_prompt default_model st d) w3) in H.
  rewrite bind_unfold in H. unfold OpenAIApiClient_init in H.
  rewrite bind_unfold in H. unfold environ_get at 1 in H.
  rewrite ret_unfold in H.
  fold (client_of (before_request (get_prompt default_model st d) w3)) in H.
  apply bind_Ok_inv in H as (s & w5 & Hs & H).
  apply bind_Ok_inv in H as (path & w6 & Hpath & H).
  apply sys_argv_Ok in Hpath as [Hpath ->].
  apply bind_Ok_inv in H as ([] & w7 & Hrm & H).
  apply os_remove_Ok in Hrm as [Hsome ->].
  apply bind_Ok_inv in H as (path2 & w8 & Hpath2 & H).
  apply sys_argv_Ok in Hpath2 as [Hpath2 ->].
  cbn [argv log set_files] in Hpath2.
  assert (path2 = path) as -> by congruence.
  rewrite bind_unfold in H. unfold open_write at 1 in H.
  match type of H with
  | ?m ?w0 = _ =>
      assert (Hq : only_prints m)
        by (repeat first [ apply only_prints_bind; [| intros ?]
                         | apply only_prints_for_each; intros ? ];
            auto using only_prints_print, only_prints_sys_argv);
      destruct (Hq w0) as (Hf & after & Ht & Ho)
  end.
  rewrite H in Hf, Ht. cbn [snd files trace log set_files] in Hf, Ht.
  assert (Hr : reaches_request w (get_prompt default_model st d)
                 (before_request (get_prompt default_model st d) w3))
    by (by exists w1, w2, w3, st, d).
  exists (get_prompt default_model st d),
    (before_request (get_prompt default_model st d) w3), w5, s, path, after.
  split; [exact Hr |]. split; [exact Hs |].
  assert (Ha : argv w5 = argv w).
  { pose proof (reaches_request_setting _ _ _ Hr) as (Ha & _).
    pose proof (keeps_get_suggested_commit_message
                  (client_of (before_request (get_prompt default_model st d) w3))
                  (get_prompt default_model st d) default_model
                  default_max_tokens default_temperature
                  (before_request (get_prompt default_model st d) w3)) as K.
    rewrite Hs in K. destruct K as (K & _). cbn [snd] in K. congruence. }
  split; [by rewrite <- Ha |]. split; [done |]. split; [done |].
  split; [| done]. rewrite Ht. by rewrite <- !app_assoc.
Qed.

(** [main] when the round trip of its request fails. *)
Lemma main_transport_failure (w w' : World) (prompt : str) (k : transport_failure) :
  reaches_request w prompt w' ->
  endpoint w' (request_for (_create_request_data prompt default_model
                              default_max_tokens default_temperature)
                           (_create_headers (client_of w'))) = TransportFails k ->
  exists w'', main py_str json_dumps w = (Raise (LibraryError k), w'')
              /\ run_hook py_str json_dumps w = (1%Z, w'').
Proof.
  intros Hr Hk.
  pose proof (suggestion_transport_failure py_str json_dumps _ _ _ _ _ _ _ Hk) as Hs.
  cbv zeta in Hs. pose proof (main_request_raises _ _ _ _ _ Hr Hs) as Hm.
  eexists. split; [exact Hm |]. unfold run_hook. by rewrite Hm.
Qed.

(** C4: when the first line of the commit-message file has a character
    that is not whitespace, the hook prints one line and exits with status
    0: no request is sent, no file changes, and the environment is not
    looked at (the statement asks nothing of it). *)
Theorem check_abort_skips (w : World) (path content : str) :
  argv w !! 1%nat = Some path ->
  files w !! path = Some content ->
  (exists c, c ∈ readline content /\ is_space c = false) ->
  main py_str json_dumps w = (Raise (SystemExit 0), skipped w)
  /\ run_hook py_str json_dumps w = (0%Z, skipped w)
  /\ (forall rq, EvHttp rq ∈ trace (skipped w) -> EvHttp rq ∈ trace w)
  /\ files (skipped w) = files w.
Proof.
  intros Hp Hf Hc. apply truthy_strip in Hc.
  assert (Hm : main py_str json_dumps w = (Raise (SystemExit 0), skipped w)).
  { unfold main. rewrite bind_unfold. unfold check_abort.
    rewrite bind_unfold. unfold sys_argv at 1. rewrite Hp.
    rewrite bind_unfold. unfold open_readline at 1. rewrite Hf.
    rewrite bind_unfold, Hc. unfold when at 1. by rewrite bind_unfold. }
  split; [exact Hm |]. split; [unfold run_hook; by rewrite Hm |].
  split; [| done]. intros rq. unfold skipped. cbn [trace log].
  rewrite elem_of_app, list_elem_of_singleton. by intros [? | ?].
Qed.

(** C6: when [main] returns, the client had returned a validated
    suggestion for the prompt of the driver; the driver then removed the
    commit-message file and wrote it anew, so that it holds exactly the
    suggestion, printed, and the process exits with status 0. *)
Theorem main_writes_suggestion (w w' : World) :
  main py_str json_dumps w = (Ok tt, w') ->
  exists path s prompt w1 w2 after,
    argv w !! 1%nat = Some path
    /\ reaches_request w prompt w1
    /\ get_suggested_commit_message py_str json_dumps (client_of w1) prompt
         default_model default_max_tokens default_temperature w1 = (Ok s, w2)
    /\ files w' !! path = Some s
    /\ trace w' = trace w2 ++ [EvRemove path; EvWrite path ModeW s] ++ after
    /\ Forall is_stdout after
    /\ run_hook py_str json_dumps w = (0%Z, w').
Proof.
  intros Hm.
  destruct (main_Ok_inv _ _ _ Hm)
    as (prompt & w1 & w2 & s & path & after & Hr & Hs & Hp & _ & Hf & Ht & Ho).
  exists path, s, prompt, w1, w2, after.
  split; [done |]. split; [done |]. split; [done |].
  split; [by rewrite Hf, lookup_insert_eq |]. split; [done |]. split; [done |].
  unfold run_hook. by rewrite Hm.
Qed.


End Driver.

(** The sample runs of the driver. *)

Lemma check_abort_skips_witness :
  environ merge_world !! OPENAI_API_KEY = None
  /\ run_hook sample_render sample_render merge_world = (0%Z, skipped merge_world)
  /\ forall rq, EvHttp rq ∈ trace (skipped merge_world) -> EvHttp rq ∈ trace merge_world.
Proof.
  split; [vm_compute; reflexivity |].
  destruct (check_abort_skips sample_render sample_render merge_world sample_path
              (lit "Merge branch 'main'" ++ [nl])) as (_ & Hr & Hn & _).
  - vm_compute. reflexivity.
  - vm_compute. reflexivity.
  - exists 77. split; [| vm_compute; reflexivity].
    vm_compute. left.
  - split; [exact Hr | exact Hn].
Defined.

Lemma main_writes_suggestion_witness :
  exists path s prompt w1 w2 after,
    argv accepted_world !! 1%nat = Some path
    /\ reaches_request accepted_world prompt w1
    /\ get_suggested_commit_message sample_render sample_render (client_of w1) prompt
         default_model default_max_tokens default_temperature w1 = (Ok s, w2)
    /\ files (main sample_render sample_render accepted_world).2 !! path = Some s
    /\ trace (main sample_render sample_render accepted_world).2
       = trace w2 ++ [EvRemove path; EvWrite path ModeW s] ++ after
    /\ Forall is_stdout after
    /\ run_hook sample_render sample_render accepted_world
       = (0%Z, (main sample_render sample_render accepted_world).2).
Proof.
  apply (main_writes_suggestion sample_render sample_render accepted_world).
  vm_compute. reflexivity.
Defined.

(** The commit-message file of the sample run ends as the suggestion of
    the endpoint, trimmed. *)
Lemma sample_run_writes_suggestion :
  files (main sample_render sample_render accepted_world).2 !! sample_path
  = Some sample_suggestion.
Proof. vm_compute. reflexivity. Qed.



(** ** The prompt builder *)

Lemma substring_unlines (needle line : str) (ls : list str) :
  In line ls -> substring needle line -> substring needle (unlines ls).
Proof.
  intros Hin Hs. unfold unlines.
  induction ls as [|l ls IH]; [done |]. cbn [map concat].
  destruct Hin as [-> | Hin].
  - by apply substring_app_r, substring_app_r.
  - by apply substring_app_l, IH.
Qed.

Lemma marker_instruction_in_intro (model : str) :
  substring marker_instruction (prompt_intro model).
Proof.
  unfold prompt_intro. apply substring_app_l.
  apply (substring_unlines _
           (lit "- The first two characters should be " ++ quoted marker
            ++ lit " to indicate that the commit message was written by an AI model")).
  - cbn [In]. repeat first [ left; reflexivity | right ].
  - exists (lit "- "),
      (lit " to indicate that the commit message was written by an AI model").
    reflexivity.
Qed.

Lemma no_update_instruction_in_outro (model : str) :
  substring no_update_instruction (prompt_outro model).
Proof.
  unfold prompt_outro. apply substring_app_l.
  apply (substring_unlines _ prompt_lastly).
  - right. by left.
  - exists (lit "Lastly, "),
      (lit ". Instead, choose a unique and stylish first line in the imperative tense that concisely describes the changes made in the commit. This line should be no more than 50 characters.").
    reflexivity.
Qed.

(** C7: whatever the model, the status text and the diff text, the prompt
    holds both texts as they are, the instruction that the answer starts
    with the marker and the instruction that it does not start with the
    marker followed by [Update]; equal arguments give equal prompts. *)
Theorem get_prompt_embeds (model status_text diff_text : str) :
  substring status_text (get_prompt model status_text diff_text)
  /\ substring diff_text (get_prompt model status_text diff_text)
  /\ substring marker_instruction (get_prompt model status_text diff_text)
  /\ substring no_update_instruction (get_prompt model status_text diff_text)
  /\ (forall model' status_text' diff_text',
         model' = model -> status_text' = status_text -> diff_text' = diff_text ->
         get_prompt model' status_text' diff_text'
         = get_prompt model status_text diff_text).
Proof.
  unfold get_prompt. repeat split.
  - apply substring_app_l, substring_app_r, substring_refl.
  - do 3 apply substring_app_l. apply substring_app_r, substring_refl.
  - apply substring_app_r, marker_instruction_in_intro.
  - do 4 apply substring_app_l. apply no_update_instruction_in_outro.
  - by intros ? ? ? -> -> ->.
Qed.

(** * Further properties of the hook *)

(** ** The abort check *)

Lemma bind_Raise_inv {A B : Type} (m : M A) (k : A -> M B) (w w' : World) (e : exn) :
  (m ≫= k) w = (Raise e, w') ->
  m w = (Raise e, w') \/ exists a w1, m w = (Ok a, w1) /\ k a w1 = (Raise e, w').
Proof.
  rewrite bind_unfold. destruct (m w) as [[a|e0] w1]; [eauto |].
  intros [= -> ->]. by left.
Qed.

Lemma blank_strip (s : str) : truthy (strip s) = false <-> blank s.
Proof.
  unfold blank. destruct (truthy (strip s)) eqn:E.
  - apply truthy_strip in E as (c & Hin & Hc). split; [done |].
    intros H. rewrite (H c Hin) in Hc. done.
  - split; [| done]. intros _ c Hin.
    destruct (is_space c) eqn:Hc; [done |].
    assert (truthy (strip s) = true) by (apply truthy_strip; eauto).
    congruence.
Qed.

(** X1: [check_abort] returns exactly when the commit-message file is
    there, its first line is blank and the credential is in the
    environment; it then has changed and printed nothing. *)
Theorem check_abort_returns_iff (w w' : World) :
  check_abort w = (Ok tt, w') <->
  w' = w
  /\ exists path content,
       argv w !! 1%nat = Some path
       /\ files w !! path = Some content
       /\ blank (readline content)
       /\ is_Some (environ w !! OPENAI_API_KEY).
Proof.
  unfold check_abort. rewrite bind_unfold. unfold sys_argv at 1.
  destruct (argv w !! 1%nat) as [path|] eqn:Ea.
  2: { split; [done | by intros (_ & ? & ? & ? & _)]. }
  rewrite bind_unfold. unfold open_readline at 1.
  destruct (files w !! path) as [content|] eqn:Ef.
  2: { split; [done |]. intros (_ & ? & ? & [= <-] & ? & _). congruence. }
  rewrite bind_unfold.
  destruct (truthy (strip (readline content))) eqn:Et.
  { split; [done |]. intros (_ & ? & ? & [= <-] & Hf & Hb & _).
    rewrite Ef in Hf. injection Hf as <-.
    apply blank_strip in Hb. congruence. }
  apply blank_strip in Et.
  unfold when at 1. rewrite ret_unfold, bind_unfold. unfold environ_has at 1.
  destruct (environ w !! OPENAI_API_KEY) as [key|] eqn:Ee; cbn [negb].
  - unfold when. rewrite ret_unfold. split.
    + intros [= <-]. split; [done |]. by exists path, content.
    + by intros [-> _].
  - split; [done |]. intros (_ & ? & ? & _ & _ & _ & [? ?]). done.
Qed.

(** X2: with a blank first line and no [OPENAI_API_KEY] in the
    environment, the hook prints the red diagnostic on the standard output
    and exits with status 1; it has run no subprocess, sent no request and
    changed no file. *)
Theorem missing_credential_exits_1 (py_str json_dumps : json -> str)
    (w : World) (path content : str) :
  argv w !! 1%nat = Some path ->
  files w !! path = Some content ->
  blank (readline content) ->
  environ w !! OPENAI_API_KEY = None ->
  main py_str json_dumps w
  = (Raise (SystemExit 1), log (EvStdout (missing_credential_line ++ [nl])) w)
  /\ run_hook py_str json_dumps w
     = (1%Z, log (EvStdout (missing_credential_line ++ [nl])) w).
Proof.
  intros Ha Hf Hb He. apply blank_strip in Hb.
  assert (Hm : main py_str json_dumps w
               = (Raise (SystemExit 1),
                  log (EvStdout (missing_credential_line ++ [nl])) w)).
  { unfold main. rewrite bind_unfold. unfold check_abort.
    rewrite bind_unfold. unfold sys_argv at 1. rewrite Ha.
    rewrite bind_unfold. unfold open_readline at 1. rewrite Hf.
    rewrite bind_unfold, Hb. unfold when at 1. rewrite ret_unfold.
    rewrite bind_unfold. unfold environ_has at 1. rewrite He. cbn [negb].
    unfold when. by rewrite bind_unfold. }
  split; [exact Hm |]. unfold run_hook. by rewrite Hm.
Qed.

Lemma missing_credential_exits_1_witness :
  run_hook sample_render sample_render
    (without_credential (sample_world [nl] (TransportFails DnsFailure)))
  = (1%Z, log (EvStdout (missing_credential_line ++ [nl]))
              (without_credential (sample_world [nl] (TransportFails DnsFailure)))).
Proof.
  apply (missing_credential_exits_1 sample_render sample_render
           (without_credential (sample_world [nl] (TransportFails DnsFailure)))
           sample_path [nl]).
  - vm_compute. reflexivity.
  - vm_compute. reflexivity.
  - intros c Hc. vm_compute in Hc. apply list_elem_of_singleton in Hc as ->.
    vm_compute. reflexivity.
  - vm_compute. reflexivity.
Defined.

(** ** The subprocesses *)

Lemma check_process_run (r : CompletedProcess) (w : World) :
  check_process r w
  = (if (returncode r =? 0)%Z then Ok tt else Raise git_failed, after_report r w).
Proof.
  unfold check_process, after_report. rewrite bind_unfold.
  destruct (truthy (stderr r)); unfold when at 1;
    [unfold print at 1, emit at 1 | rewrite ret_unfold];
    by destruct (returncode r =? 0)%Z.
Qed.

Lemma trace_after_report (r : CompletedProcess) (w : World) :
  trace (after_report r w) = trace w ++ process_report r
  /\ files (after_report r w) = files w
  /\ same_setting w (after_report r w).
Proof.
  unfold after_report, process_report.
  destruct (truthy (stderr r)); [done |]. by rewrite app_nil_r.
Qed.

Lemma get_diff_text_run (excluded : list str) (w : World) :
  get_diff_text excluded w
  = if (returncode (git w name_only_command) =? 0)%Z
    then (if (returncode (diff_process excluded w) =? 0)%Z
          then Ok (take diff_length_limit (stdout (diff_process excluded w)))
          else Raise git_failed,
          after_report (diff_process excluded w)
            (log (EvRun (diff_command
                           (staged_changes_of excluded
                              (stdout (git w name_only_command)))))
                 (after_report (git w name_only_command)
                    (log (EvRun name_only_command) w))))
    else (Raise git_failed,
          after_report (git w name_only_command) (log (EvRun name_only_command) w)).
Proof.
  unfold get_diff_text. rewrite bind_unfold. unfold subprocess_run at 1.
  rewrite bind_unfold, check_process_run.
  destruct (returncode (git w name_only_command) =? 0)%Z; [| done].
  cbv zeta. rewrite bind_unfold. unfold subprocess_run at 1.
  assert (Hg : git (after_report (git w name_only_command)
                      (log (EvRun name_only_command) w)) = git w)
    by (unfold after_report; by destruct (truthy _)).
  rewrite Hg. fold (diff_process excluded w).
  rewrite bind_unfold, check_process_run.
  by destruct (returncode (diff_process excluded w) =? 0)%Z.
Qed.

(** X3: the paths [get_diff_text] hands to the second [git diff] are the
    staged names that are not in [excluded], in the order of the listing;
    a name is excluded only when the whole line equals an excluded name.
    When every staged name is excluded, the diff is run with no path at
    all. *)
Theorem get_diff_text_paths (excluded : list str) (w : World) :
  returncode (git w name_only_command) = 0%Z ->
  exists paths,
    paths = staged_changes_of excluded (stdout (git w name_only_command))
    /\ trace (get_diff_text excluded w).2
       = trace w
         ++ EvRun name_only_command :: process_report (git w name_only_command)
         ++ EvRun (diff_command paths) :: process_report (diff_process excluded w)
    /\ (forall f, f ∈ paths <->
                  f ∈ splitlines (stdout (git w name_only_command)) /\ f ∉ excluded)
    /\ paths `sublist_of` splitlines (stdout (git w name_only_command))
    /\ (Forall (fun f => f ∈ excluded) (splitlines (stdout (git w name_only_command))) ->
        paths = []).
Proof.
  intros H. eexists. split; [reflexivity |]. split; [| split; [| split]].
  - rewrite get_diff_text_run, H. cbn [Z.eqb snd].
    destruct (trace_after_report (diff_process excluded w)
                (log (EvRun (diff_command
                               (staged_changes_of excluded
                                  (stdout (git w name_only_command)))))
                     (after_report (git w name_only_command)
                        (log (EvRun name_only_command) w)))) as (-> & _).
    cbn [trace log].
    destruct (trace_after_report (git w name_only_command)
                (log (EvRun name_only_command) w)) as (-> & _).
    cbn [trace log]. by rewrite <- !app_assoc.
  - intros f. unfold staged_changes_of. rewrite list_elem_of_filter. tauto.
  - apply sublist_filter.
  - intros Hall. unfold staged_changes_of.
    induction Hall as [|f l Hf _ IH]; [done |].
    rewrite filter_cons. by destruct (decide (f ∉ excluded)).
Qed.

Lemma get_diff_text_paths_witness :
  exists paths,
    paths = [lit "web/yarn.lock"; lit "src/app.js"]
    /\ trace (get_diff_text default_excluded lock_files_world).2
       = trace lock_files_world
         ++ EvRun name_only_command
            :: process_report (git lock_files_world name_only_command)
         ++ EvRun (diff_command paths)
            :: process_report (diff_process default_excluded lock_files_world).
Proof.
  destruct (get_diff_text_paths default_excluded lock_files_world)
    as (paths & Hp & Ht & _).
  - vm_compute. reflexivity.
  - exists paths. split; [| exact Ht]. rewrite Hp. vm_compute. reflexivity.
Defined.


(** ** Extraction *)

(** X5: [_get_completion] returns exactly when the response is an object
    whose ["choices"] is a list with a first element that is an object with
    a string under ["text"]; what it returns is that string, trimmed. The
    other choices and keys play no part. *)
Theorem get_completion_returns_iff (response : json) (c : str) :
  _get_completion response = Ok c <->
  exists d first rest text,
    response = JDict d
    /\ dict_get d (lit "choices") = Some (JList (JDict first :: rest))
    /\ dict_get first (lit "text") = Some (JStr text)
    /\ c = strip text.
Proof.
  split.
  - unfold _get_completion, py_getitem, py_getitem0, py_strip. intros H.
    repeat case_match; simplify_eq. by eexists _, _, _, _.
  - intros (d & first & rest & text & -> & Hc & Ht & ->).
    unfold _get_completion, py_getitem. rewrite Hc. cbn [py_getitem0].
    by rewrite Ht.
Qed.

(** ** Validation and the request *)

Lemma contains_raises (key : str) (v : json) (e : exn) :
  py_contains key v = Raise e -> e = TypeError.
Proof. destruct v; simpl; congruence. Qed.

Lemma getitem_after_contains (key : str) (v : json) (e : exn) :
  py_contains key v = Ok true -> py_getitem v key = Raise e -> e = TypeError.
Proof.
  destruct v; simpl; try congruence.
  destruct (dict_get d key); congruence.
Qed.

Section Validation.

Variable py_str : json -> str.
Variable json_dumps : json -> str.

(** The three ways validation ends. *)
Lemma check_response_cases (response : json) (w w' : World) (r : result bool) :
  _check_response py_str json_dumps response w = (r, w') ->
  (r = Ok true /\ w' = w)
  \/ (r = Ok false /\ exists text, w' = log (EvStderr (in_red text ++ [nl])) w)
  \/ (r = Raise TypeError /\ w' = w).
Proof.
  unfold _check_response. rewrite bind_unfold. unfold lift at 1.
  destruct (py_contains (lit "choices") response) as [[|]|e] eqn:Hc;
    cbv beta iota; cbn [negb]; cbv iota.
  - rewrite ret_unfold. intros [= <- <-]. by left.
  - rewrite bind_unfold. unfold lift at 1.
    destruct (py_contains (lit "error") response) as [[|]|e] eqn:He;
      cbv beta iota.
    + rewrite !bind_unfold. unfold lift at 1.
      destruct (py_getitem response (lit "error")) as [err|e] eqn:Hg;
        cbv beta iota.
      2: { apply (getitem_after_contains _ _ _ He) in Hg as ->.
           intros [= <- <-]. by right; right. }
      rewrite !bind_unfold. unfold lift at 1.
      destruct (py_contains (lit "message") err) as [[|]|e] eqn:Hm;
        cbv beta iota.
      * rewrite !bind_unfold. unfold lift at 1. cbv beta iota.
        unfold lift at 1.
        destruct (py_getitem err (lit "message")) as [m|e] eqn:Hgm;
          cbv beta iota.
        -- intros [= <- <-]. right; left. split; [done |]. by eexists.
        -- apply (getitem_after_contains _ _ _ Hm) in Hgm as ->.
           intros [= <- <-]. by right; right.
      * rewrite !bind_unfold. unfold lift at 1. cbv beta iota.
        intros [= <- <-]. right; left. split; [done |]. by eexists.
      * apply contains_raises in Hm as ->. intros [= <- <-]. by right; right.
    + rewrite bind_unfold. intros [= <- <-]. right; left.
      split; [done |]. by eexists.
    + apply contains_raises in He as ->. intros [= <- <-]. by right; right.
  - apply contains_raises in Hc as ->. intros [= <- <-]. by right; right.
Qed.


End Validation.



(** ** The files of a run *)

Lemma other_files_same_refl (w : World) : other_files_same w w.
Proof. by intros p _. Qed.

Lemma other_files_same_trans (w1 w2 w3 : World) :
  other_files_same w1 w2 -> other_files_same w2 w3 -> other_files_same w1 w3.
Proof. intros H1 H2 p Hp. by rewrite (H2 p Hp), (H1 p Hp). Qed.

Lemma kof_ret {A : Type} (a : A) : keeps_other_files (mret a : M A).
Proof. by intros w p _. Qed.

Lemma kof_raise {A : Type} (e : exn) : keeps_other_files (raise e : M A).
Proof. by intros w p _. Qed.

Lemma kof_lift {A : Type} (r : result A) : keeps_other_files (lift r).
Proof. by intros w p _. Qed.

Lemma kof_bind {A B : Type} (m : M A) (k : A -> M B) :
  keeps_other_files m -> (forall a, keeps_other_files (k a)) ->
  keeps_other_files (m ≫= k).
Proof.
  intros Hm Hk w p Hp. rewrite bind_unfold. specialize (Hm w p Hp).
  destruct (m w) as [[a|e] w1]; cbn [snd] in *; [| done].
  by rewrite (Hk a w1 p Hp).
Qed.

Lemma kof_when (cond : bool) (body : M unit) :
  keeps_other_files body -> keeps_other_files (when cond body).
Proof. destruct cond; [done | intros _; apply kof_ret]. Qed.

Lemma kof_emit (e : event) : keeps_other_files (emit e).
Proof. by intros w p _. Qed.

Lemma kof_print (s : str) : keeps_other_files (print s).
Proof. apply kof_emit. Qed.

Lemma kof_print_stderr (s : str) : keeps_other_files (print_stderr s).
Proof. apply kof_emit. Qed.

Lemma kof_sys_argv (i : nat) : keeps_other_files (sys_argv i).
Proof. intros w p _. unfold sys_argv. by destruct (argv w !! i). Qed.

Lemma kof_sys_exit {A : Type} (code : Z) : keeps_other_files (sys_exit code : M A).
Proof. apply kof_raise. Qed.

Lemma kof_open_readline (path : str) : keeps_other_files (open_readline path).
Proof. intros w p _. unfold open_readline. by destruct (files w !! path). Qed.

Lemma kof_write_prompt (data : str) : keeps_other_files (open_write prompt_file data).
Proof.
  intros w p Hp. unfold open_write. cbn [snd files log set_files].
  by rewrite lookup_insert_ne.
Qed.

Lemma kof_append_prompt (data : str) : keeps_other_files (open_append prompt_file data).
Proof.
  intros w p Hp. unfold open_append. cbn [snd files log set_files].
  by rewrite lookup_insert_ne.
Qed.

Lemma kof_subprocess_run (args : list str) : keeps_other_files (subprocess_run args).
Proof. by intros w p _. Qed.

Lemma kof_environ_has (name : str) : keeps_other_files (environ_has name).
Proof. by intros w p _. Qed.

Lemma kof_environ_get (name : str) : keeps_other_files (environ_get name).
Proof. by intros w p _. Qed.

Create HintDb other_files.
#[local] Hint Resolve kof_ret kof_raise kof_lift kof_when kof_emit kof_print
  kof_print_stderr kof_sys_argv kof_sys_exit kof_open_readline kof_write_prompt
  kof_append_prompt kof_subprocess_run kof_environ_has kof_environ_get
  : other_files.

Ltac kof :=
  repeat first [ apply kof_bind; [| intros ?] | apply kof_when ];
  auto with other_files.

Lemma kof_check_abort : keeps_other_files check_abort.
Proof. unfold check_abort. kof. Qed.

Lemma kof_check_process (r : CompletedProcess) : keeps_other_files (check_process r).
Proof. unfold check_process. kof. Qed.

#[local] Hint Resolve kof_check_abort kof_check_process : other_files.

Lemma kof_get_status_text : keeps_other_files get_status_text.
Proof. unfold get_status_text. kof. Qed.

Lemma kof_get_diff_text (excluded : list str) :
  keeps_other_files (get_diff_text excluded).
Proof. unfold get_diff_text. cbv zeta. kof. Qed.

Lemma kof_init (key : option str) : keeps_other_files (OpenAIApiClient_init key).
Proof.
  unfold OpenAIApiClient_init. destruct key as [k|]; [destruct (truthy k) |]; kof.
Qed.

Lemma kof_get_suggested (py_str json_dumps : json -> str) (self : OpenAIApiClient)
    (prompt model : str) (max_tokens : Z) (temperature : float) :
  keeps_other_files (get_suggested_commit_message py_str json_dumps self prompt
                       model max_tokens temperature).
Proof.
  unfold get_suggested_commit_message. cbv zeta.
  apply kof_bind.
  { intros w p _. unfold _send_request. cbv zeta. by case_match. }
  intros response. apply kof_bind.
  { unfold _check_response. kof.
    case_match; kof. case_match; kof. case_match; kof. }
  intros valid. kof.
Qed.

#[local] Hint Resolve kof_get_status_text kof_get_diff_text kof_init
  kof_get_suggested : other_files.

(** One stage of a run that ends by an exception: either the stage
    raised it, or it returned and what follows raised it. *)
Lemma raise_in_stage {A B : Type} (m : M A) (k : A -> M B)
    (w0 w w' : World) (e : exn) :
  keeps_other_files m ->
  other_files_same w0 w ->
  (m ≫= k) w = (Raise e, w') ->
  other_files_same w0 w'
  \/ exists a w1, other_files_same w0 w1 /\ m w = (Ok a, w1)
                  /\ k a w1 = (Raise e, w').
Proof.
  intros Hm H0 H. pose proof (Hm w) as Hw.
  apply bind_Raise_inv in H as [H | (a & w1 & H1 & H)].
  - left. rewrite H in Hw. by apply (other_files_same_trans w0 w).
  - right. exists a, w1. rewrite H1 in Hw.
    split; [by apply (other_files_same_trans w0 w) | done].
Qed.

(** The lines [main] prints for a suggestion, one after the other. *)
Lemma for_each_print (f : str -> str) (l : list str) (w : World) :
  for_each l (fun line => print (f line)) w
  = (Ok tt, foldl (fun w0 line => log (EvStdout (f line ++ [nl])) w0) w l).
Proof.
  revert w. induction l as [|x l IH]; intros w; [done |].
  cbn [for_each foldl]. rewrite bind_unfold. unfold print at 1, emit at 1.
  apply IH.
Qed.



(** ** The exit status *)

Lemma ne_ret {A : Type} (a : A) : never_exits (mret a : M A).
Proof. by intros w code. Qed.

Lemma ne_raise {A : Type} (e : exn) :
  (forall code, e <> SystemExit code) -> never_exits (raise e : M A).
Proof. intros He w code [= H]. by apply (He code). Qed.

Lemma ne_lift {A : Type} (r : result A) :
  (forall code, r <> Raise (SystemExit code)) -> never_exits (lift r).
Proof. intros Hr w code. apply Hr. Qed.

Lemma ne_bind {A B : Type} (m : M A) (k : A -> M B) :
  never_exits m -> (forall a, never_exits (k a)) -> never_exits (m ≫= k).
Proof.
  intros Hm Hk w code. rewrite bind_unfold. specialize (Hm w code).
  destruct (m w) as [[a|e] w1]; cbn [fst] in *; [apply Hk |].
  intros [= ->]. by apply Hm.
Qed.

Lemma ne_when (cond : bool) (body : M unit) :
  never_exits body -> never_exits (when cond body).
Proof. destruct cond; [done | intros _; apply ne_ret]. Qed.

Lemma ne_emit (e : event) : never_exits (emit e).
Proof. by intros w code. Qed.

Lemma ne_print (s : str) : never_exits (print s).
Proof. apply ne_emit. Qed.

Lemma ne_print_stderr (s : str) : never_exits (print_stderr s).
Proof. apply ne_emit. Qed.

Lemma ne_sys_argv (i : nat) : never_exits (sys_argv i).
Proof. intros w code. unfold sys_argv. by destruct (argv w !! i). Qed.

Lemma ne_open_write (path data : str) : never_exits (open_write path data).
Proof. by intros w code. Qed.

Lemma ne_open_append (path data : str) : never_exits (open_append path data).
Proof. by intros w code. Qed.

Lemma ne_os_remove (path : str) : never_exits (os_remove path).
Proof. intros w code. unfold os_remove. by destruct (files w !! path). Qed.

Lemma ne_subprocess_run (args : list str) : never_exits (subprocess_run args).
Proof. by intros w code. Qed.

Lemma ne_environ_get (name : str) : never_exits (environ_get name).
Proof. by intros w code. Qed.

Lemma ne_for_each {A : Type} (l : list A) (body : A -> M unit) :
  (forall x, never_exits (body x)) -> never_exits (for_each l body).
Proof.
  intros Hb. induction l as [|x l IH]; simpl; [apply ne_ret |].
  apply ne_bind; [apply Hb | done].
Qed.

Lemma ne_contains (key : str) (v : json) : never_exits (lift (py_contains key v)).
Proof.
  apply ne_lift. intros code H. by apply contains_raises in H.
Qed.

Lemma ne_getitem (v : json) (key : str) : never_exits (lift (py_getitem v key)).
Proof.
  apply ne_lift. intros code. unfold py_getitem. repeat case_match; congruence.
Qed.

Lemma ne_get_completion (response : json) :
  never_exits (lift (_get_completion response)).
Proof.
  apply ne_lift. intros code.
  unfold _get_completion, py_getitem, py_getitem0, py_strip.
  repeat case_match; congruence.
Qed.

Create HintDb exits.
#[local] Hint Resolve ne_ret ne_when ne_emit ne_print ne_print_stderr ne_sys_argv
  ne_open_write ne_open_append ne_os_remove ne_subprocess_run ne_environ_get
  ne_for_each ne_contains ne_getitem ne_get_completion : exits.

Ltac ne :=
  repeat first [ solve [auto with exits]
               | apply ne_bind; [| intros ?] | apply ne_when
               | apply ne_for_each; intros ?
               | apply ne_raise; by intros ? ].

Lemma ne_check_process (r : CompletedProcess) : never_exits (check_process r).
Proof. unfold check_process. ne. Qed.

#[local] Hint Resolve ne_check_process : exits.

Lemma ne_get_suggested (py_str json_dumps : json -> str) (self : OpenAIApiClient)
    (prompt model : str) (max_tokens : Z) (temperature : float) :
  never_exits (get_suggested_commit_message py_str json_dumps self prompt
                 model max_tokens temperature).
Proof.
  unfold get_suggested_commit_message. cbv zeta.
  apply ne_bind.
  { intros w code. unfold _send_request. cbv zeta. by case_match. }
  intros response. apply ne_bind.
  { unfold _check_response. ne.
    case_match; ne. case_match; ne. case_match; ne. }
  intros valid. ne.
Qed.

(** An [exit] that leaves [main] comes from the abort check. *)
Lemma main_exit_inv (py_str json_dumps : json -> str) (w w' : World) (code : Z) :
  main py_str json_dumps w = (Raise (SystemExit code), w') ->
  check_abort w = (Raise (SystemExit code), w').
Proof.
  unfold main. intros H.
  apply bind_Raise_inv in H as [H | (u & w1 & _ & H)]; [done |].
  exfalso. cbv beta zeta in H.
  match type of H with
  | ?m ?w0 = _ =>
      assert (K : never_exits m);
      [| by apply (K w0 code); rewrite H]
  end.
  pose proof (ne_get_suggested py_str json_dumps) as Hs.
  unfold get_status_text, get_diff_text, OpenAIApiClient_init. cbv zeta.
  ne.
Qed.

Lemma check_abort_exit_0 (w w' : World) :
  check_abort w = (Raise (SystemExit 0), w') ->
  exists path content,
    argv w !! 1%nat = Some path
    /\ files w !! path = Some content
    /\ ~ blank (readline content).
Proof.
  unfold check_abort. rewrite bind_unfold. unfold sys_argv at 1.
  destruct (argv w !! 1%nat) as [path|] eqn:Ea; [| done].
  rewrite bind_unfold. unfold open_readline at 1.
  destruct (files w !! path) as [content|] eqn:Ef; [| done].
  rewrite bind_unfold.
  destruct (truthy (strip (readline content))) eqn:Et.
  - intros _. exists path, content. split; [done |]. split; [done |].
    intros Hb. apply blank_strip in Hb. congruence.
  - unfold when at 1. rewrite ret_unfold, bind_unfold. unfold environ_has at 1.
    destruct (environ w !! OPENAI_API_KEY); cbn [negb]; unfold when; [done |].
    by rewrite bind_unfold.
Qed.

Lemma main_skip (py_str json_dumps : json -> str) (w : World) (path content : str) :
  argv w !! 1%nat = Some path ->
  files w !! path = Some content ->
  ~ blank (readline content) ->
  main py_str json_dumps w = (Raise (SystemExit 0), skipped w).
Proof.
  intros Hp Hf Hb.
  assert (Ht : truthy (strip (readline content)) = true).
  { destruct (truthy (strip (readline content))) eqn:E; [done |].
    by apply blank_strip in E. }
  unfold main. rewrite bind_unfold. unfold check_abort.
  rewrite bind_unfold. unfold sys_argv at 1. rewrite Hp.
  rewrite bind_unfold. unfold open_readline at 1. rewrite Hf.
  rewrite bind_unfold, Ht. unfold when at 1. by rewrite bind_unfold.
Qed.

(** X9: the hook exits with status 0 in two cases only: [main] returned,
    having written the suggestion, or the commit-message file was there
    with a first line that is not blank, and the hook skipped. Every other
    run ends with a status other than 0. *)
Theorem exit_status_zero_iff (py_str json_dumps : json -> str) (w : World) :
  (run_hook py_str json_dumps w).1 = 0%Z <->
  (exists w', main py_str json_dumps w = (Ok tt, w'))
  \/ (exists path content,
        argv w !! 1%nat = Some path
        /\ files w !! path = Some content
        /\ ~ blank (readline content)).
Proof.
  split.
  - unfold run_hook. destruct (main py_str json_dumps w) as [[[]|e] w'] eqn:E;
      cbn [fst exit_status]; [by left; exists w' |].
    intros H. right.
    destruct e; try discriminate H. subst code.
    by apply main_exit_inv, check_abort_exit_0 in E.
  - intros [[w' H] | (path & content & Hp & Hf & Hb)]; unfold run_hook.
    + by rewrite H.
    + by rewrite (main_skip _ _ _ _ _ Hp Hf Hb).
Qed.